(** * quart-schema: conversion and OpenAPI assembly

    A shallow embedding of [src/quart_schema/conversion.py] and
    [src/quart_schema/extension.py].  Python objects are first-order
    values, classes are descriptors carrying what the code asks of them
    ([issubclass], [is_dataclass], ...), raising is an [outcome], and the
    third-party libraries (pydantic, msgspec, attrs, humps, re) are a
    record of functions the embedded code calls. *)

From Stdlib Require Import ZArith String Ascii List Bool Lia.
From stdpp Require Import base option list strings pretty gmap.

Set Warnings "-register-all".

Local Open Scope string_scope.
Local Open Scope Z_scope.

(** ** Python classes *)

(** A class object, as far as the code inspects it.  [cls_name] is the
    qualified name and identifies the class; [cls_mro] lists its proper
    ancestors (the method resolution order without the class itself). *)
Record pyclass := PyClass {
  cls_name : string;
  cls_mro : list string;
  cls_is_pydantic_dataclass : bool;
  cls_is_dataclass : bool;
  cls_is_attrs : bool;
  (** the declared field names, as the introspection of the class's kind
      reports them *)
  cls_fields : list string;
}.

#[global] Instance pyclass_eq_dec : EqDecision pyclass.
Proof. solve_decision. Defined.

(** [issubclass(c, base)] *)
Definition issubclass (c base : pyclass) : bool :=
  bool_decide (cls_name base ∈ cls_name c :: cls_mro c).

Definition builtin_class (name : string) (mro : list string) : pyclass :=
  PyClass name mro false false false [].

Definition object_ : pyclass := builtin_class "object" [].
Definition NoneType : pyclass := builtin_class "NoneType" ["object"].
Definition int_ : pyclass := builtin_class "int" ["object"].
Definition bool_ : pyclass := builtin_class "bool" ["int"; "object"].
Definition str_ : pyclass := builtin_class "str" ["object"].
Definition list_ : pyclass := builtin_class "list" ["object"].
Definition tuple_ : pyclass := builtin_class "tuple" ["object"].
Definition dict_ : pyclass := builtin_class "dict" ["object"].

Definition exception_mro : list string := ["Exception"; "BaseException"; "object"].
Definition Exception : pyclass := builtin_class "Exception" ["BaseException"; "object"].
Definition TypeError : pyclass := builtin_class "TypeError" exception_mro.
Definition ValueError : pyclass := builtin_class "ValueError" exception_mro.
Definition RuntimeError : pyclass := builtin_class "RuntimeError" exception_mro.
Definition KeyError : pyclass :=
  builtin_class "KeyError" ("LookupError" :: exception_mro).
Definition AttributeError : pyclass := builtin_class "AttributeError" exception_mro.
Definition UnboundLocalError : pyclass :=
  builtin_class "UnboundLocalError" ("NameError" :: exception_mro).
Definition HTTPException : pyclass :=
  builtin_class "werkzeug.exceptions.HTTPException" exception_mro.

(** ** Exceptions and results *)

(** An exception instance: its class, its [args], and the exception that
    was being handled when it was raised ([__context__]). *)
Inductive exn :=
| Exn (ty : pyclass) (args : list exn_arg) (context : option exn)
with exn_arg :=
| ArgStr (s : string)
| ArgExn (e : exn).

Definition exn_type (e : exn) : pyclass := let 'Exn ty _ _ := e in ty.
Definition exn_args (e : exn) : list exn_arg := let 'Exn _ args _ := e in args.
Definition exn_context (e : exn) : option exn := let 'Exn _ _ ctx := e in ctx.

(** What running a piece of code gives: a value, or a raised exception. *)
Inductive outcome (A : Type) :=
| Ok (a : A)
| Raise (e : exn).
Arguments Ok {A} a.
Arguments Raise {A} e.

(** Sequencing: an exception raised by the first statement skips the rest
    ([x ← r; k] below). *)
#[global] Instance outcome_ret : MRet outcome := fun A a => Ok a.
#[global] Instance outcome_bind : MBind outcome := fun A B k r =>
  match r with
  | Ok a => k a
  | Raise e => Raise e
  end.

(** [isinstance(e, c)] for an exception instance *)
Definition exn_isinstance (e : exn) (c : pyclass) : bool :=
  issubclass (exn_type e) c.

(** [try: r except (classes) as error: handler error] *)
Definition try_except {A} (r : outcome A) (classes : list pyclass)
    (handler : exn → outcome A) : outcome A :=
  match r with
  | Ok a => Ok a
  | Raise e => if existsb (exn_isinstance e) classes then handler e else Raise e
  end.

(** [raise cls(msg)] outside any handler *)
Definition raise_msg {A} (cls : pyclass) (msg : string) : outcome A :=
  Raise (Exn cls [ArgStr msg] None).

(** A method or attribute the object does not have. *)
Definition attribute_error {A} (attr : string) : outcome A :=
  raise_msg AttributeError ("object has no attribute '" +:+ attr +:+ "'").

(** [raise cls(error)] inside the handler of [error]: the new exception is
    built from the caught one and chained to it. *)
Definition raise_from_handler {A} (cls : pyclass) (error : exn) : outcome A :=
  Raise (Exn cls [ArgExn error] (Some error)).

(** ** Python values *)

(** Instances of [list], [tuple] and [dict] (and of their subclasses) are
    the [VList], [VTuple] and [VDict] values; every other object is a
    [VObj] with its class and attributes. *)
Inductive pyvalue :=
| VNone
| VBool (b : bool)
| VInt (n : Z)
| VStr (s : string)
| VList (items : list pyvalue)
| VTuple (items : list pyvalue)
| VDict (items : list (string * pyvalue))
| VObj (cls : pyclass) (attrs : list (string * pyvalue)).

(** [type(v)] *)
Definition type_of (v : pyvalue) : pyclass :=
  match v with
  | VNone => NoneType
  | VBool _ => bool_
  | VInt _ => int_
  | VStr _ => str_
  | VList _ => list_
  | VTuple _ => tuple_
  | VDict _ => dict_
  | VObj cls _ => cls
  end.

(** [isinstance(v, c)] *)
Definition isinstance (v : pyvalue) (c : pyclass) : bool :=
  issubclass (type_of v) c.

(** [isinstance(v, (list, dict))] *)
Definition isinstance_list_dict (v : pyvalue) : bool :=
  match v with
  | VList _ | VDict _ => true
  | _ => false
  end.

(** [repr(cls)], as interpolated by the f-strings of the error messages *)
Definition class_repr (c : pyclass) : string :=
  "<class '" +:+ cls_name c +:+ "'>".

(** ** The imported libraries *)

(** Which of the optional imports at the top of conversion.py succeeded. *)
Record environment := Environment {
  PYDANTIC_INSTALLED : bool;
  MSGSPEC_INSTALLED : bool;
}.

(** The library calls made by the code.  Each field is named after the
    Python expression it stands for. *)
Record libraries := Libraries {
  (** [RootModel[type(raw)](raw).model_dump()] *)
  RootModel_model_dump : pyvalue → outcome pyvalue;
  (** [raw.model_dump(by_alias=by_alias)] *)
  BaseModel_model_dump : pyvalue → bool → outcome pyvalue;
  (** [TypeAdapter(type_).dump_python(raw)] *)
  TypeAdapter_dump_python : pyclass → pyvalue → outcome pyvalue;
  (** [TypeAdapter(model_class).validate_python(data)] *)
  TypeAdapter_validate_python : pyclass → pyvalue → outcome pyvalue;
  (** [msgspec.to_builtins(raw)] *)
  msgspec_to_builtins : pyvalue → outcome pyvalue;
  (** [msgspec.convert(data, model_class, strict=False)] *)
  msgspec_convert : pyvalue → pyclass → outcome pyvalue;
  (** [humps.camelize], [humps.kebabize], [humps.decamelize] *)
  humps_camelize : pyvalue → pyvalue;
  humps_kebabize : pyvalue → pyvalue;
  humps_decamelize : pyvalue → pyvalue;
  (** the constructor call [model_class] with keyword arguments *)
  instantiate : pyclass → list (string * pyvalue) → outcome pyvalue;
  (** [dataclasses.asdict(model_value)] and [model_value.dict()] *)
  dataclasses_asdict : pyvalue → outcome pyvalue;
  BaseModel_dict : pyvalue → outcome pyvalue;
  (** [re.sub(pattern, repl, string)] *)
  re_sub : string → string → string → string;
}.

(** ** conversion.py, lines 14-67: the imports and their stand-ins *)

Definition BaseModel (env : environment) : pyclass :=
  if PYDANTIC_INSTALLED env
  then builtin_class "pydantic.main.BaseModel" ["object"]
  else builtin_class "quart_schema.conversion.BaseModel" ["object"].

Definition PydanticValidationError (env : environment) : pyclass :=
  if PYDANTIC_INSTALLED env
  then builtin_class "pydantic_core.ValidationError" ("ValueError" :: exception_mro)
  else builtin_class "quart_schema.conversion.PydanticValidationError" exception_mro.

Definition is_pydantic_dataclass (env : environment) (c : pyclass) : bool :=
  if PYDANTIC_INSTALLED env then cls_is_pydantic_dataclass c else false.

(** The stand-in classes are empty: [TypeAdapter(model_class)] has no
    constructor to take the argument, and an instance of the stand-in
    [BaseModel] has no [model_dump]. *)
Definition validate_python (env : environment) (L : libraries)
    (model_class : pyclass) (data : pyvalue) : outcome pyvalue :=
  if PYDANTIC_INSTALLED env then TypeAdapter_validate_python L model_class data
  else raise_msg TypeError "TypeAdapter() takes no arguments".

Definition dump_python (env : environment) (L : libraries)
    (type_ : pyclass) (raw : pyvalue) : outcome pyvalue :=
  if PYDANTIC_INSTALLED env then TypeAdapter_dump_python L type_ raw
  else raise_msg TypeError "TypeAdapter() takes no arguments".

Definition raw_model_dump (env : environment) (L : libraries)
    (raw : pyvalue) (by_alias : bool) : outcome pyvalue :=
  if PYDANTIC_INSTALLED env then BaseModel_model_dump L raw by_alias
  else attribute_error "model_dump".

Definition Struct (env : environment) : pyclass :=
  if MSGSPEC_INSTALLED env
  then builtin_class "msgspec.Struct" ["object"]
  else builtin_class "quart_schema.conversion.Struct" ["object"].

Definition MsgSpecValidationError (env : environment) : pyclass :=
  if MSGSPEC_INSTALLED env
  then builtin_class "msgspec.ValidationError"
         ("msgspec.DecodeError" :: "msgspec.MsgspecError" :: exception_mro)
  else builtin_class "quart_schema.conversion.MsgSpecValidationError" exception_mro.

Definition is_attrs (env : environment) (c : pyclass) : bool :=
  if MSGSPEC_INSTALLED env then cls_is_attrs c else false.

(** The stand-in [convert] takes two positional parameters only, so the
    call with [strict=False] is a TypeError. *)
Definition convert (env : environment) (L : libraries)
    (data : pyvalue) (model_class : pyclass) : outcome pyvalue :=
  if MSGSPEC_INSTALLED env then msgspec_convert L data model_class
  else raise_msg TypeError "convert() got an unexpected keyword argument 'strict'".

Definition to_builtins (env : environment) (L : libraries)
    (object_ : pyvalue) : outcome pyvalue :=
  if MSGSPEC_INSTALLED env then msgspec_to_builtins L object_ else Ok object_.

(** [dataclasses.is_dataclass], on a class or on an instance *)
Definition is_dataclass (c : pyclass) : bool := cls_is_dataclass c.

(** [preference != s] *)
Definition preference_ne (preference : option string) (s : string) : bool :=
  negb (bool_decide (preference = Some s)).

(** ** conversion.py: model_dump *)

(** Lines 154-159. *)
Definition apply_casing (L : libraries) (camelize kebabize : bool)
    (value : pyvalue) : pyvalue :=
  if camelize then humps_camelize L value
  else if kebabize then humps_kebabize L value
  else value.

(** [is_pydantic_dataclass(raw)] of line 133, where the argument is the
    value and not its class.  pydantic looks for its marker in the
    [__dict__] of the argument: the decorator leaves it in the
    [__dict__] of the class, and the [__dict__] of an instance holds the
    fields.  No [pyvalue] is a class object, so the answer is [False],
    as is the answer of the stand-in of line 34. *)
Definition instance_is_pydantic_dataclass (env : environment) (raw : pyvalue)
    : bool :=
  false.

(** [isinstance], [attrs.has] and [dataclasses.is_dataclass] are asked
    of the instance [raw] and answer as for its class;
    [is_pydantic_dataclass] does not, so that the instance of a pydantic
    dataclass goes on to the dataclass tests of lines 140 and 146. *)
Definition model_dump (env : environment) (L : libraries) (raw : pyvalue)
    (by_alias camelize kebabize : bool) (preference : option string)
    : outcome pyvalue :=
  if instance_is_pydantic_dataclass env raw then
    value ← RootModel_model_dump L raw;
    Ok (apply_casing L camelize kebabize value)
  else if isinstance raw (BaseModel env) then
    value ← raw_model_dump env L raw by_alias;
    Ok (apply_casing L camelize kebabize value)
  else if isinstance raw (Struct env) || is_attrs env (type_of raw) then
    value ← to_builtins env L raw;
    Ok (apply_casing L camelize kebabize value)
  else if (isinstance_list_dict raw || is_dataclass (type_of raw))
          && PYDANTIC_INSTALLED env
          && preference_ne preference "msgspec" then
    value ← dump_python env L (type_of raw) raw;
    Ok (apply_casing L camelize kebabize value)
  else if (isinstance_list_dict raw || is_dataclass (type_of raw))
          && MSGSPEC_INSTALLED env
          && preference_ne preference "pydantic" then
    value ← to_builtins env L raw;
    Ok (apply_casing L camelize kebabize value)
  else Ok raw.

(** No branch of lines 133-150 takes [raw]: the value is of no kind that
    [model_dump] knows. *)
Definition opaque (env : environment) (raw : pyvalue)
    (preference : option string) : bool :=
  negb (instance_is_pydantic_dataclass env raw)
  && negb (isinstance raw (BaseModel env))
  && negb (isinstance raw (Struct env) || is_attrs env (type_of raw))
  && negb ((isinstance_list_dict raw || is_dataclass (type_of raw))
           && PYDANTIC_INSTALLED env
           && preference_ne preference "msgspec")
  && negb ((isinstance_list_dict raw || is_dataclass (type_of raw))
           && MSGSPEC_INSTALLED env
           && preference_ne preference "pydantic").

(** ** conversion.py: model_load *)

(** [isinstance(model_class, (list, dict))] where [model_class] is a
    class object: a class is an instance of [type], which derives from
    neither. *)
Definition type_ : pyclass := builtin_class "type" ["object"].

Definition class_isinstance_list_dict (model_class : pyclass) : bool :=
  issubclass type_ list_ || issubclass type_ dict_.

(** Lines 174-182 and 184-192: the two conditions of the dispatch. *)
Definition loads_with_pydantic (env : environment) (model_class : pyclass)
    (preference : option string) : bool :=
  is_pydantic_dataclass env model_class
  || issubclass model_class (BaseModel env)
  || ((class_isinstance_list_dict model_class || is_dataclass model_class)
      && PYDANTIC_INSTALLED env
      && preference_ne preference "msgspec").

Definition loads_with_msgspec (env : environment) (model_class : pyclass)
    (preference : option string) : bool :=
  issubclass model_class (Struct env)
  || is_attrs env model_class
  || ((class_isinstance_list_dict model_class || is_dataclass model_class)
      && MSGSPEC_INSTALLED env
      && preference_ne preference "pydantic").

(** Line 196: the classes of the [except] clause. *)
Definition load_errors (env : environment) : list pyclass :=
  [TypeError; MsgSpecValidationError env; PydanticValidationError env; ValueError].

Definition model_load (env : environment) (L : libraries) (data : pyvalue)
    (model_class exception_class : pyclass) (decamelize : bool)
    (preference : option string) : outcome pyvalue :=
  let data := if decamelize then humps_decamelize L data else data in
  try_except
    (if loads_with_pydantic env model_class preference then
       validate_python env L model_class data
     else if loads_with_msgspec env model_class preference then
       convert env L data model_class
     else
       raise_msg TypeError ("Cannot load " +:+ class_repr model_class))
    (load_errors env)
    (fun error => raise_from_handler exception_class error).

(** ** Valid instances *)


(** ** The kinds of the specification *)

(** A library that can take a plain dataclass is installed and not
    excluded by the preference. *)
Definition backend_available (env : environment) (preference : option string)
    : bool :=
  (PYDANTIC_INSTALLED env && preference_ne preference "msgspec")
  || (MSGSPEC_INSTALLED env && preference_ne preference "pydantic").

(** The class [c] is of a kind the specification lists: a validated
    record (pydantic dataclass), a schema-validated model (BaseModel
    subclass), a struct (Struct subclass), an attribute class (attrs),
    or a plain record (dataclass) for which a backend is available. *)
Definition recognized (env : environment) (c : pyclass)
    (preference : option string) : bool :=
  is_pydantic_dataclass env c
  || issubclass c (BaseModel env)
  || issubclass c (Struct env)
  || is_attrs env c
  || (is_dataclass c && backend_available env preference).

(** The instances that model_dump serializes: those of the kinds above,
    a record of either sort needing a backend. *)
Definition serialized (env : environment) (c : pyclass)
    (preference : option string) : bool :=
  issubclass c (BaseModel env)
  || issubclass c (Struct env)
  || is_attrs env c
  || (is_dataclass c && backend_available env preference).

(** ** Python dicts and strings *)

(** A dict as the list of its items in insertion order. *)
Section dict.
Context {K V : Type} `{EqDecision K}.

(** [d.get(k)] *)
Fixpoint dict_get (k : K) (d : list (K * V)) : option V :=
  match d with
  | [] => None
  | (k', v) :: d => if decide (k = k') then Some v else dict_get k d
  end.

(** [d[k] = v]: an existing key keeps its position, a new one goes last. *)
Fixpoint dict_set (d : list (K * V)) (k : K) (v : V) : list (K * V) :=
  match d with
  | [] => [(k, v)]
  | (k', v') :: d =>
      if decide (k = k') then (k, v) :: d else (k', v') :: dict_set d k v
  end.

(** [del d[k]], when present *)
Fixpoint dict_delete (k : K) (d : list (K * V)) : list (K * V) :=
  match d with
  | [] => []
  | (k', v) :: d =>
      if decide (k = k') then dict_delete k d else (k', v) :: dict_delete k d
  end.

(** [d.update(other)] *)
Definition dict_update (d other : list (K * V)) : list (K * V) :=
  fold_left (fun d kv => dict_set d kv.1 kv.2) other d.

(** [d.setdefault(k, v)], for its effect on [d] *)
Definition dict_setdefault (d : list (K * V)) (k : K) (v : V) : list (K * V) :=
  match dict_get k d with
  | Some _ => d
  | None => dict_set d k v
  end.

(** [d.keys()] *)
Definition dict_keys (d : list (K * V)) : list K := d.*1.

End dict.

(** A [str] is the sequence of its code points.  The strings of this
    development are those over the code points below 256, the range in
    which header names and HTTP methods are decoded; a character is its
    code point. *)

(** [c.lower()]: the upper-case letters are A to Z and, past ASCII,
    U+00C0 to U+00DE without the multiplication sign U+00D7; each has its
    lower-case form 32 places further.  Every other character is left
    alone. *)
Definition ascii_lower (c : ascii) : ascii :=
  let n := nat_of_ascii c in
  if ((65 <=? n)%nat && (n <=? 90)%nat)
     || ((192 <=? n)%nat && (n <=? 222)%nat && negb (n =? 215)%nat)
  then ascii_of_nat (n + 32) else c.

(** [c.isspace()], which is also what the class of white space matches
    in a regular expression over [str]:
    tab to carriage return, the separators U+001C to U+001F, the space,
    U+0085 and the no-break space U+00A0. *)
Definition ascii_isspace (c : ascii) : bool :=
  let n := nat_of_ascii c in
  ((9 <=? n)%nat && (n <=? 13)%nat) || ((28 <=? n)%nat && (n <=? 32)%nat)
  || (n =? 133)%nat || (n =? 160)%nat.

(** [c.isnumeric()]: the digits, the superscripts U+00B2, U+00B3 and
    U+00B9, and the fractions U+00BC to U+00BE. *)
Definition ascii_isnumeric (c : ascii) : bool :=
  let n := nat_of_ascii c in
  ((48 <=? n)%nat && (n <=? 57)%nat) || (n =? 178)%nat || (n =? 179)%nat
  || (n =? 185)%nat || ((188 <=? n)%nat && (n <=? 190)%nat).

Fixpoint str_map (f : ascii → ascii) (s : string) : string :=
  match s with
  | EmptyString => EmptyString
  | String c s => String (f c) (str_map f s)
  end.

Fixpoint str_filter (f : ascii → bool) (s : string) : string :=
  match s with
  | EmptyString => EmptyString
  | String c s => if f c then String c (str_filter f s) else str_filter f s
  end.

Fixpoint str_forall (f : ascii → bool) (s : string) : bool :=
  match s with
  | EmptyString => true
  | String c s => f c && str_forall f s
  end.

(** [s.lower()] *)
Definition str_lower (s : string) : string := str_map ascii_lower s.

(** [s.isnumeric()]: at least one character, and all of them numeric. *)
Definition str_isnumeric (s : string) : bool :=
  match s with
  | EmptyString => false
  | _ => str_forall ascii_isnumeric s
  end.

(** The letters a to z in upper case.  The code never calls [upper];
    this is how the statements below write the upper-case name that a
    lower-case key comes from. *)
Definition ascii_upper (c : ascii) : ascii :=
  let n := nat_of_ascii c in
  if (97 <=? n)%nat && (n <=? 122)%nat then ascii_of_nat (n - 32) else c.

Definition str_upper (s : string) : string := str_map ascii_upper s.

(** No letter a to z occurs in [s], as in every name that [upper]
    returned. *)
Definition no_lower_case (s : string) : bool :=
  str_forall (fun c => let n := nat_of_ascii c in
                       negb ((97 <=? n)%nat && (n <=? 122)%nat)) s.

(** Every character of [s] is an ASCII character. *)
Definition str_isascii (s : string) : bool :=
  str_forall (fun c => (nat_of_ascii c <? 128)%nat) s.

(** [sep.join(parts)] *)
Fixpoint str_join (sep : string) (parts : list string) : string :=
  match parts with
  | [] => ""
  | [p] => p
  | p :: parts => p +:+ sep +:+ str_join sep parts
  end.

(** [re.sub] of every run of white space by the empty string *)
Definition remove_whitespace (s : string) : string :=
  str_filter (fun c => negb (ascii_isspace c)) s.

(** [s.replace("-", "_")] *)
Definition hyphens_to_underscores (s : string) : string :=
  str_map (fun c => if Ascii.eqb c "-" then "_"%char else c) s.

(** [humps.dekebabize] on a [str].  humps first takes the white space
    out of the string; if what is left is numeric the argument is
    returned as it came, and otherwise what is left is returned with
    every hyphen replaced by an underscore. *)
Definition humps_dekebabize (s : string) : string :=
  let stripped := remove_whitespace s in
  if str_isnumeric stripped then s else hyphens_to_underscores stripped.

(** ** conversion.py: convert_response_return_value *)

(** [current_app.config] *)
Record config := Config {
  QUART_SCHEMA_CONVERT_CASING : bool;
  QUART_SCHEMA_BY_ALIAS : bool;
  QUART_SCHEMA_CONVERSION_PREFERENCE : option string;
}.

(** Reading a local that no branch has assigned. *)
Definition unbound_local {A} (name : string) : outcome A :=
  raise_msg UnboundLocalError
    ("cannot access local variable '" +:+ name
     +:+ "' where it is not associated with a value").

Definition is_not_None (v : pyvalue) : bool :=
  match v with
  | VNone => false
  | _ => true
  end.

(** Lines 79-95: the locals [value], [status] and [headers] once the
    return value is taken apart.  [value] stays unbound for a tuple of
    any other length. *)
Definition unpack_result (result : pyvalue)
    : option pyvalue * pyvalue * pyvalue :=
  match result with
  | VTuple items =>
      match items with
      | [value; status; headers] => (Some value, status, headers)
      | [value; status_or_headers] =>
          if isinstance status_or_headers int_
          then (Some value, status_or_headers, VNone)
          else (Some value, VNone, status_or_headers)
      | _ => (None, VNone, VNone)
      end
  | _ => (Some result, VNone, VNone)
  end.

(** Lines 97-102 and 103-108: the two calls of model_dump. *)
Definition dump_body (env : environment) (L : libraries) (cfg : config)
    (value : pyvalue) : outcome pyvalue :=
  model_dump env L value
    (QUART_SCHEMA_BY_ALIAS cfg)
    (QUART_SCHEMA_CONVERT_CASING cfg)
    false
    (QUART_SCHEMA_CONVERSION_PREFERENCE cfg).

Definition dump_headers (env : environment) (L : libraries) (cfg : config)
    (headers : pyvalue) : outcome pyvalue :=
  model_dump env L headers
    (QUART_SCHEMA_BY_ALIAS cfg)
    false
    true
    (QUART_SCHEMA_CONVERSION_PREFERENCE cfg).

Definition convert_response_return_value (env : environment) (L : libraries)
    (cfg : config) (result : pyvalue) : outcome pyvalue :=
  if isinstance result HTTPException then Ok result
  else
    let '(value, status, headers) := unpack_result result in
    value ← match value with
            | Some value => Ok value
            | None => unbound_local "value"
            end;
    value ← dump_body env L cfg value;
    headers ← dump_headers env L cfg headers;
    match result with
    | VTuple items =>
        if (length items =? 3)%nat then Ok (VTuple [value; status; headers])
        else if (length items =? 2)%nat then
          if is_not_None status then Ok (VTuple [value; status])
          else Ok (VTuple [value; headers])
        else unbound_local "new_result"
    | _ => Ok value
    end.

(** ** conversion.py: convert_headers *)

(** The [raw] argument: a werkzeug [Headers] multi-map (its list of
    name/value entries) or a plain dict. *)
Inductive raw_headers :=
| Headers (entries : list (string * string))
| HeadersDict (items : list (string * pyvalue)).

(** [raw.keys()] *)
Definition raw_keys (raw : raw_headers) : list string :=
  match raw with
  | Headers entries => entries.*1
  | HeadersDict items => dict_keys items
  end.

(** [Headers.get_all(key)]: the values of every entry of that name,
    compared without case. *)
Definition get_all (entries : list (string * string)) (key : string)
    : list string :=
  (filter (fun kv => str_lower kv.1 = str_lower key) entries).*2.

(** Line 238. *)
Definition header_field_name (raw_key : string) : string :=
  str_lower (humps_dekebabize raw_key).

(** Lines 240-243: the value stored for [raw_key]. *)
Definition header_value (raw : raw_headers) (raw_key : string)
    : outcome pyvalue :=
  match raw with
  | Headers entries => Ok (VStr (str_join "," (get_all entries raw_key)))
  | HeadersDict items =>
      match dict_get raw_key items with
      | Some v => Ok v
      | None => Raise (Exn KeyError [ArgStr raw_key] None)
      end
  end.

(** Lines 238-243: one turn of the loop. *)
Definition collect_header (raw : raw_headers) (fields_ : gset string)
    (result : list (string * pyvalue)) (raw_key : string)
    : outcome (list (string * pyvalue)) :=
  let key := header_field_name raw_key in
  if bool_decide (key ∈ fields_) then
    v ← header_value raw raw_key;
    Ok (dict_set result key v)
  else Ok result.

(** [for x in xs: acc = body acc x], stopping at the first exception. *)
Fixpoint for_each {A S} (xs : list A) (body : S → A → outcome S) (acc : S)
    : outcome S :=
  match xs with
  | [] => Ok acc
  | x :: xs => acc ← body acc x; for_each xs body acc
  end.

(** Lines 236-243. *)
Definition collect_headers (raw : raw_headers) (fields_ : gset string)
    : outcome (list (string * pyvalue)) :=
  for_each (raw_keys raw) (collect_header raw fields_) [].

(** Lines 223-234. *)
Definition declared_fields (env : environment) (model_class : pyclass)
    : outcome (gset string) :=
  if is_pydantic_dataclass env model_class then
    Ok (list_to_set (cls_fields model_class))
  else if is_dataclass model_class then
    Ok (list_to_set (cls_fields model_class))
  else if issubclass model_class (BaseModel env) then
    Ok (list_to_set (cls_fields model_class))
  else if is_attrs env model_class then
    Ok (list_to_set (cls_fields model_class))
  else if issubclass model_class (Struct env) then
    Ok (list_to_set (cls_fields model_class))
  else raise_msg TypeError ("Cannot convert to " +:+ class_repr model_class).

Definition convert_headers (env : environment) (L : libraries)
    (raw : raw_headers) (model_class exception_class : pyclass)
    : outcome pyvalue :=
  fields_ ← declared_fields env model_class;
  result ← collect_headers raw fields_;
  try_except (instantiate L model_class result)
    [TypeError; MsgSpecValidationError env; ValueError]
    (fun error => raise_from_handler exception_class error).




(** ** extension.py: the store of schema objects *)

(** JSON-schema dicts are attached to the view functions and shared, so
    they live in a store: a value held in a dict or list is an atom or a
    reference to another stored object. *)
Definition loc := positive.

Inductive sval :=
| SNone
| SBool (b : bool)
| SInt (n : Z)
| SStr (s : string)
| SRef (l : loc).

Inductive sobj :=
| SDict (items : list (string * sval))
| SList (items : list sval).

Abbreviation store := (gmap loc sobj).

(** A new object at an address no object has. *)
Definition alloc (h : store) (o : sobj) : loc * store :=
  let l := fresh (dom h) in (l, <[l := o]> h).

(** The items of the dict [v] refers to; [attr] is the dict method the
    caller was after. *)
Definition dict_items_of (h : store) (v : sval) (attr : string)
    : outcome (list (string * sval)) :=
  match v with
  | SRef l =>
      match h !! l with
      | Some (SDict items) => Ok items
      | _ => attribute_error attr
      end
  | _ => attribute_error attr
  end.

(** [d.copy()]: dicts and lists have it, the atoms do not. *)
Definition dict_copy (h : store) (d : sval) : outcome (sval * store) :=
  match d with
  | SRef l =>
      match h !! l with
      | Some o => let '(l', h) := alloc h o in Ok (SRef l', h)
      | None => attribute_error "copy"
      end
  | _ => attribute_error "copy"
  end.

(** [d.pop(key, default)]; the [pop] of a list takes no default. *)
Definition dict_pop (h : store) (d : sval) (key : string) (default : sval)
    : outcome (sval * store) :=
  match d with
  | SRef l =>
      match h !! l with
      | Some (SDict items) =>
          match dict_get key items with
          | Some v => Ok (v, <[l := SDict (dict_delete key items)]> h)
          | None => Ok (default, h)
          end
      | Some (SList _) =>
          raise_msg TypeError "pop expected at most 1 argument, got 2"
      | None => attribute_error "pop"
      end
  | _ => attribute_error "pop"
  end.

(** ** extension.py: _split_definitions *)

(** The result is the pair [(definitions, new_schema)] and the store the
    call leaves behind.  The default [{}] of [pop] is built before the
    call, whether or not it is used. *)
Definition _split_definitions (schema : sval) (h : store)
    : outcome ((sval * sval) * store) :=
  '(new_schema, h) ← dict_copy h schema;
  let '(empty, h) := alloc h (SDict []) in
  '(definitions, h) ← dict_pop h new_schema "definitions" (SRef empty);
  Ok ((definitions, new_schema), h).

(** ** extension.py: WebsocketMixin.send_as *)

Definition SchemaValidationError : pyclass :=
  builtin_class "quart_schema.extension.SchemaValidationError" exception_mro.

(** [pydantic.ValidationError], imported unconditionally by extension.py *)
Definition ValidationError : pyclass :=
  builtin_class "pydantic_core.ValidationError" ("ValueError" :: exception_mro).

(** The websocket is the list of the JSON messages sent so far;
    [send_json] appends to it. *)
Definition send_json (ws : list pyvalue) (data : pyvalue) : list pyvalue :=
  ws ++ [data].

Definition send_as (L : libraries) (ws : list pyvalue) (value : pyvalue)
    (model_class : pyclass) : outcome (list pyvalue) :=
  model_value ←
    match value with
    | VDict items =>
        try_except (instantiate L model_class items)
          [ValidationError]
          (fun error => Raise (Exn SchemaValidationError [] (Some error)))
    | _ =>
        if decide (type_of value = model_class) then Ok value
        else Raise (Exn SchemaValidationError [] None)
    end;
  data ←
    (if is_dataclass (type_of model_value) then dataclasses_asdict L model_value
     else BaseModel_dict L model_value);
  Ok (send_json ws data).

(** ** extension.py: QuartSchema.openapi *)

Definition PATH_RE : string := "<(?:[^:]*:)?([^>]+)>".

Definition newline : string := String (ascii_of_nat 10) "".

(** A rule of [app.url_map]. *)
Record rule := Rule {
  rule_endpoint : string;
  rule_rule : string;
  (** [rule.methods], in the order the loop meets them *)
  rule_methods : list string;
  rule_provide_automatic_options : bool;
  (** the keys of [rule._converters] *)
  rule_converters : list string;
}.

(** A view function, with the attributes the decorators leave on it. *)
Record view_function := ViewFunction {
  (** [func.__doc__.splitlines()], or [None] without a docstring *)
  func_doc : option (list string);
  (** the response attribute, [{}] when absent *)
  func_response_schemas : list (Z * sval);
  func_request_schema : option sval;
  func_querystring_schema : option sval;
}.

(** An entry of [path_object["parameters"]]. *)
Record param := Param {
  param_name : string;
  param_in : string;
  param_schema : option sval;
}.

(** The dict [path_object], by its keys.  A response or request body
    [{"content": {"application/json": {"schema": schema}}}] is kept as
    its [schema]. *)
Record path_object := PathObject {
  po_parameters : list param;
  po_responses : list (Z * sval);
  po_description : option string;
  po_summary : option string;
  po_requestBody : option sval;
}.

(** The locals [paths] and [components["schemas"]] of the loop, and the
    store. *)
Record assembly := Assembly {
  paths : list (string * list (string * path_object));
  schemas : list (string * sval);
  heap : store;
}.

(** [update] with an argument that is no dict reads it as a sequence of
    pairs.  An element is itself taken as a sequence, which must have
    two elements, the key and the value: a list of two, a dict of two
    keys (its keys are the two) or a [str] of two characters.  The dicts
    of this development have [str] keys only: a key that is a list or a
    dict is refused by Python as unhashable, and for a key that is None,
    a bool or a number, which Python would store, the model has no
    place and stops with the exception below. *)
Definition not_a_pair {A} (index : nat) (size : nat) : outcome A :=
  raise_msg ValueError
    ("dictionary update sequence element #" +:+ pretty index
     +:+ " has length " +:+ pretty size +:+ "; 2 is required").

Definition update_pair (h : store) (index : nat) (x : sval)
    : outcome (string * sval) :=
  match x with
  | SRef l =>
      match h !! l with
      | Some (SList [SStr key; value]) => Ok (key, value)
      | Some (SList [SRef _; _]) => raise_msg TypeError "unhashable type"
      | Some (SList [_; _]) =>
          raise_msg TypeError "a key that is not a str is not modelled"
      | Some (SList xs) => not_a_pair index (length xs)
      | Some (SDict [(key, _); (value, _)]) => Ok (key, SStr value)
      | Some (SDict items) => not_a_pair index (length items)
      | None => raise_msg TypeError "object is not iterable"
      end
  | SStr (String key (String value EmptyString)) =>
      Ok (String key EmptyString, SStr (String value EmptyString))
  | SStr s => not_a_pair index (String.length s)
  | _ =>
      raise_msg TypeError
        ("cannot convert dictionary update sequence element #" +:+ pretty index
         +:+ " to a sequence")
  end.

Fixpoint update_pairs (h : store) (schemas : list (string * sval))
    (xs : list sval) (index : nat) : outcome (list (string * sval)) :=
  match xs with
  | [] => Ok schemas
  | x :: xs =>
      '(key, value) ← update_pair h index x;
      update_pairs h (dict_set schemas key value) xs (S index)
  end.

(** [components["schemas"].update(definitions)]: a dict gives its items;
    a list is read as a sequence of pairs; a [str] is the sequence of
    its characters, none of which is a pair; None, a bool and a number
    are not iterable. *)
Definition merge_definitions (h : store) (schemas : list (string * sval))
    (definitions : sval) : outcome (list (string * sval)) :=
  match definitions with
  | SRef l =>
      match h !! l with
      | Some (SDict items) => Ok (dict_update schemas items)
      | Some (SList xs) => update_pairs h schemas xs 0
      | None => raise_msg TypeError "object is not iterable"
      end
  | SStr EmptyString => Ok schemas
  | SStr _ => not_a_pair 0 1
  | SNone => raise_msg TypeError "'NoneType' object is not iterable"
  | SBool _ => raise_msg TypeError "'bool' object is not iterable"
  | SInt _ => raise_msg TypeError "'int' object is not iterable"
  end.

(** Line 186. *)
Definition no_schemas (func : view_function) : bool :=
  bool_decide (func_response_schemas func = [])
  && bool_decide (func_request_schema func = None)
  && bool_decide (func_querystring_schema func = None).

(** Lines 193-196. *)
Definition document (func : view_function) (po : path_object)
    : outcome path_object :=
  match func_doc func with
  | None => Ok po
  | Some [] =>
      raise_msg ValueError "not enough values to unpack (expected at least 1, got 0)"
  | Some (summary :: description) =>
      Ok (PathObject (po_parameters po) (po_responses po)
            (Some (str_join newline description)) (Some summary)
            (po_requestBody po))
  end.

(** Lines 198-207: one response schema. *)
Definition add_response (acc : path_object * list (string * sval) * store)
    (item : Z * sval) : outcome (path_object * list (string * sval) * store) :=
  let '(po, schemas, h) := acc in
  let '(status_code, schema) := item in
  '((definitions, schema), h) ← _split_definitions schema h;
  schemas ← merge_definitions h schemas definitions;
  Ok (PathObject (po_parameters po)
        (dict_set (po_responses po) status_code schema)
        (po_description po) (po_summary po) (po_requestBody po),
      schemas, h).

(** Lines 209-218. *)
Definition add_request (func : view_function)
    (acc : path_object * list (string * sval) * store)
    : outcome (path_object * list (string * sval) * store) :=
  let '(po, schemas, h) := acc in
  match func_request_schema func with
  | None => Ok acc
  | Some request_schema =>
      '((definitions, schema), h) ← _split_definitions request_schema h;
      schemas ← merge_definitions h schemas definitions;
      Ok (PathObject (po_parameters po) (po_responses po)
            (po_description po) (po_summary po) (Some schema),
          schemas, h)
  end.

(** Lines 220-230. *)
Definition add_querystring (func : view_function)
    (acc : path_object * list (string * sval) * store)
    : outcome (path_object * list (string * sval) * store) :=
  let '(po, schemas, h) := acc in
  match func_querystring_schema func with
  | None => Ok acc
  | Some querystring_schema =>
      '((definitions, schema), h) ← _split_definitions querystring_schema h;
      schemas ← merge_definitions h schemas definitions;
      schema_items ← dict_items_of h schema "__getitem__";
      properties ←
        match dict_get "properties" schema_items with
        | Some properties => Ok properties
        | None => Raise (Exn KeyError [ArgStr "properties"] None)
        end;
      properties ← dict_items_of h properties "items";
      Ok (PathObject
            (po_parameters po
             ++ map (fun item => Param item.1 "query" (Some item.2)) properties)
            (po_responses po) (po_description po) (po_summary po)
            (po_requestBody po),
          schemas, h)
  end.

(** Lines 232-238. *)
Definition add_converters (rule : rule) (po : path_object) : path_object :=
  PathObject
    (po_parameters po
     ++ map (fun name => Param name "path" None) (rule_converters rule))
    (po_responses po) (po_description po) (po_summary po) (po_requestBody po).

(** Line 244: the methods the loop passes over. *)
Definition skipped (rule : rule) (method : string) : bool :=
  bool_decide (method = "HEAD")
  || (bool_decide (method = "OPTIONS") && rule_provide_automatic_options rule).

(** Line 246: [paths[path][key] = path_object]. *)
Definition set_operation (paths : list (string * list (string * path_object)))
    (path key : string) (po : path_object)
    : outcome (list (string * list (string * path_object))) :=
  match dict_get path paths with
  | Some methods => Ok (dict_set paths path (dict_set methods key po))
  | None => Raise (Exn KeyError [ArgStr path] None)
  end.

(** Lines 243-246. *)
Definition attach_methods (rule : rule) (path : string) (po : path_object)
    (paths : list (string * list (string * path_object)))
    : outcome (list (string * list (string * path_object))) :=
  for_each (rule_methods rule)
    (fun paths method =>
       if skipped rule method then Ok paths
       else set_operation paths path (str_lower method) po)
    paths.

(** Lines 189-238: the operation object of a route, with the schemas
    and the store after its definitions are merged. *)
Definition build_path_object (func : view_function) (rule : rule)
    (schemas : list (string * sval)) (h : store)
    : outcome (path_object * list (string * sval) * store) :=
  po ← document func (PathObject [] [] None None None);
  acc ← for_each (func_response_schemas func) add_response (po, schemas, h);
  acc ← add_request func acc;
  '(po, schemas, h) ← add_querystring func acc;
  Ok (add_converters rule po, schemas, h).

(** Line 240. *)
Definition openapi_path (L : libraries) (rule : rule) : string :=
  re_sub L PATH_RE "{\1}" (rule_rule rule).

(** Lines 182-246: the body of the loop over the rules. *)
Definition openapi_rule (L : libraries)
    (view_functions : list (string * view_function))
    (st : assembly) (rule : rule) : outcome assembly :=
  func ← match dict_get (rule_endpoint rule) view_functions with
         | Some func => Ok func
         | None => Raise (Exn KeyError [ArgStr (rule_endpoint rule)] None)
         end;
  if no_schemas func then Ok st
  else
    '(po, schemas, h) ← build_path_object func rule (schemas st) (heap st);
    let path := openapi_path L rule in
    let paths := dict_setdefault (paths st) path [] in
    paths ← attach_methods rule path po paths;
    Ok (Assembly paths schemas h).

(** The keys under which the loop of lines 243-246 stores the operation
    object of [rule]. *)
Definition written_keys (rule : rule) : list string :=
  str_lower <$> filter (fun method => skipped rule method = false)
                  (rule_methods rule).

(** The operation stored in [paths] for a path and a method key. *)
Definition operation_at (paths : list (string * list (string * path_object)))
    (path key : string) : option path_object :=
  methods ← dict_get path paths; dict_get key methods.

(** The route [rule] has schemas registered and stores its operation
    object under [path] and [key]. *)
Definition stores_under (L : libraries)
    (view_functions : list (string * view_function)) (rule : rule)
    (path key : string) : Prop :=
  ∃ func, dict_get (rule_endpoint rule) view_functions = Some func
          ∧ no_schemas func = false
          ∧ openapi_path L rule = path
          ∧ key ∈ written_keys rule.

(** Line 186, asked of a rule: its view function has schemas registered
    (a rule without view function is kept, the lookup of line 182 fails
    for it). *)
Definition has_schemas (view_functions : list (string * view_function))
    (rule : rule) : bool :=
  match dict_get (rule_endpoint rule) view_functions with
  | Some func => negb (no_schemas func)
  | None => true
  end.

(** The extension object, once [init_app] has run. *)
Record QuartSchema := {
  app_url_rules : list rule;
  app_view_functions : list (string * view_function);
  title : string;
  version : string;
}.

(** The returned document, by its keys; [components] is
    [{"schemas": ...}]. *)
Record openapi_document := OpenApiDocument {
  doc_openapi : string;
  doc_info_title : string;
  doc_info_version : string;
  doc_components_schemas : list (string * sval);
  doc_paths : list (string * list (string * path_object));
}.

Definition openapi (L : libraries) (self : QuartSchema) (h : store)
    : outcome (openapi_document * store) :=
  st ← for_each (app_url_rules self)
         (openapi_rule L (app_view_functions self))
         (Assembly [] [] h);
  Ok (OpenApiDocument "3.0.3" (title self) (version self)
        (schemas st) (paths st),
      heap st).

(** ** conversion.py: model_schema *)

Definition PYDANTIC_REF_TEMPLATE : string := "#/components/schemas/{model}".
Definition MSGSPEC_REF_TEMPLATE : string := "#/components/schemas/{name}".

Definition NameError : pyclass := builtin_class "NameError" exception_mro.
Definition IndexError : pyclass :=
  builtin_class "IndexError" ("LookupError" :: exception_mro).

(** The schema generators of the two libraries. *)
Record schema_libraries := SchemaLibraries {
  (** [TypeAdapter(model_class).json_schema(ref_template=...)] *)
  TypeAdapter_json_schema : pyclass → string → outcome pyvalue;
  (** [schema_components(types, ref_template=...)]: the schemas of the
      types and the dict of the named components *)
  msgspec_schema_components :
    list pyclass → string → outcome (list pyvalue * list (string * pyvalue));
}.

(** Without pydantic [TypeAdapter] is the empty stand-in; without
    msgspec the name [schema_components] is not bound at all (the
    [except] branch of lines 48-64 does not define it). *)
Definition json_schema (env : environment) (S : schema_libraries)
    (model_class : pyclass) (ref_template : string) : outcome pyvalue :=
  if PYDANTIC_INSTALLED env then TypeAdapter_json_schema S model_class ref_template
  else raise_msg TypeError "TypeAdapter() takes no arguments".

Definition schema_components (env : environment) (S : schema_libraries)
    (types : list pyclass) (ref_template : string)
    : outcome (list pyvalue * list (string * pyvalue)) :=
  if MSGSPEC_INSTALLED env then msgspec_schema_components S types ref_template
  else raise_msg NameError "name 'schema_components' is not defined".

(** Lines 201-206 and 208-213: the two conditions of the dispatch. *)
Definition schema_with_pydantic (env : environment) (model_class : pyclass)
    (preference : option string) : bool :=
  is_pydantic_dataclass env model_class
  || issubclass model_class (BaseModel env)
  || (class_isinstance_list_dict model_class
      && preference_ne preference "msgspec")
  || (is_dataclass model_class && preference_ne preference "msgspec").

Definition schema_with_msgspec (env : environment) (model_class : pyclass)
    (preference : option string) : bool :=
  issubclass model_class (Struct env)
  || is_attrs env model_class
  || (class_isinstance_list_dict model_class
      && preference_ne preference "pydantic")
  || (is_dataclass model_class && preference_ne preference "pydantic").

(** [list(schema.values())[0]] *)
Definition first_value (schema : list (string * pyvalue)) : outcome pyvalue :=
  match schema with
  | (_, v) :: _ => Ok v
  | [] => raise_msg IndexError "list index out of range"
  end.

Definition model_schema (env : environment) (S : schema_libraries)
    (model_class : pyclass) (preference : option string) : outcome pyvalue :=
  if schema_with_pydantic env model_class preference then
    json_schema env S model_class PYDANTIC_REF_TEMPLATE
  else if schema_with_msgspec env model_class preference then
    '(_, schema) ← schema_components env S [model_class] MSGSPEC_REF_TEMPLATE;
    first_value schema
  else
    raise_msg TypeError ("Cannot create schema for " +:+ class_repr model_class).

(** ** extension.py: WebsocketMixin.receive_as *)

(** [model_class] called with the items of [data] as keyword arguments;
    unpacking anything but a mapping is a TypeError. *)
Definition instantiate_from (L : libraries) (model_class : pyclass)
    (data : pyvalue) : outcome pyvalue :=
  match data with
  | VDict items => instantiate L model_class items
  | _ => raise_msg TypeError "argument after ** must be a mapping"
  end.

(** [data] is what [receive_json] returned. *)
Definition receive_as (L : libraries) (data : pyvalue) (model_class : pyclass)
    : outcome pyvalue :=
  try_except (instantiate_from L model_class data)
    [ValidationError]
    (fun error => Raise (Exn SchemaValidationError [] (Some error))).

(** ** extension.py: QuartSchema.__init__ and init_app *)

(** The attributes [__init__] sets on the extension. *)
Record extension := Extension {
  ext_openapi_path : option string;
  ext_redoc_ui_path : option string;
  ext_swagger_ui_path : option string;
  ext_title : option string;
  ext_version : string;
}.

(** The application, as far as init_app touches it: its name, the two
    classes init_app replaces, and the calls of [add_url_rule] made on
    it, as (rule, endpoint) in order (each call is taken to return). *)
Record quart_app := QuartApp {
  app_name : string;
  app_websocket_class : string;
  app_json_encoder : string;
  app_added_rules : list (string * string);
}.

(** [app.add_url_rule(rule, endpoint, view_func)] *)
Definition add_url_rule (app : quart_app) (rule endpoint : string) : quart_app :=
  QuartApp (app_name app) (app_websocket_class app) (app_json_encoder app)
    (app_added_rules app ++ [(rule, endpoint)]).

(** Lines 167-176; the result is the extension and the application as
    init_app leaves them. *)
Definition init_app (self : extension) (app : quart_app)
    : extension * quart_app :=
  let title :=
    match ext_title self with
    | None => app_name app
    | Some title => title
    end in
  let self := Extension (ext_openapi_path self) (ext_redoc_ui_path self)
                (ext_swagger_ui_path self) (Some title) (ext_version self) in
  let app := QuartApp (app_name app) "Websocket" "JSONEncoder"
               (app_added_rules app) in
  let app :=
    match ext_openapi_path self with
    | Some path =>
        let app := add_url_rule app path "openapi" in
        let app :=
          match ext_redoc_ui_path self with
          | Some path => add_url_rule app path "redoc_ui"
          | None => app
          end in
        match ext_swagger_ui_path self with
        | Some path => add_url_rule app path "swagger_ui"
        | None => app
        end
    | None => app
    end in
  (self, app).

(** Lines 148-164, with the defaults of the signature. *)
Definition QuartSchema_init (app : option quart_app)
    (openapi_path_ redoc_ui_path swagger_ui_path title_ : option string)
    (version_ : string) : extension * option quart_app :=
  let self :=
    Extension openapi_path_ redoc_ui_path swagger_ui_path title_ version_ in
  match app with
  | Some app => let '(self, app) := init_app self app in (self, Some app)
  | None => (self, None)
  end.

(** ** Classes of no kind *)

(** [c] is none of the kinds the dispatches ask about: not a pydantic
    dataclass, not a BaseModel or Struct subclass, not an attrs class,
    not a dataclass. *)
Definition no_kind (env : environment) (c : pyclass) : bool :=
  negb (cls_is_pydantic_dataclass c)
  && negb (issubclass c (BaseModel env))
  && negb (issubclass c (Struct env))
  && negb (cls_is_attrs c)
  && negb (cls_is_dataclass c).

(** ** The classes and libraries of the test-suite *)

(** [tests/helpers.py] and [tests/test_conversion.py]: one class of each
    kind, with the fields [name] and [age], or [x_info]. *)
Definition attrs_class (name : string) (fields : list string) : pyclass :=
  PyClass name ["object"] false false true fields.
Definition dataclass_class (name : string) (fields : list string) : pyclass :=
  PyClass name ["object"] false true false fields.
Definition struct_class (name : string) (fields : list string) : pyclass :=
  PyClass name ["msgspec.Struct"; "object"] false false false fields.
Definition basemodel_class (name : string) (fields : list string) : pyclass :=
  PyClass name ["pydantic.main.BaseModel"; "object"] false false false fields.
Definition pydantic_dataclass_class (name : string) (fields : list string)
    : pyclass :=
  PyClass name ["object"] true true false fields.

Definition ADetails : pyclass := attrs_class "tests.helpers.ADetails" ["name"; "age"].
Definition DCDetails : pyclass := dataclass_class "tests.helpers.DCDetails" ["name"; "age"].
Definition MDetails : pyclass := struct_class "tests.helpers.MDetails" ["name"; "age"].
Definition PyDetails : pyclass := basemodel_class "tests.helpers.PyDetails" ["name"; "age"].
Definition PyDCDetails : pyclass :=
  pydantic_dataclass_class "tests.helpers.PyDCDetails" ["name"; "age"].

Definition AHeaders : pyclass := attrs_class "tests.test_conversion.AHeaders" ["x_info"].
Definition MHeaders : pyclass := struct_class "tests.test_conversion.MHeaders" ["x_info"].
Definition DCHeaders : pyclass := dataclass_class "tests.test_conversion.DCHeaders" ["x_info"].
Definition PyHeaders : pyclass := basemodel_class "tests.test_conversion.PyHeaders" ["x_info"].
Definition PyDCHeaders : pyclass :=
  pydantic_dataclass_class "tests.test_conversion.PyDCHeaders" ["x_info"].

(** [class ValidationError(Exception)] of test_conversion.py *)
Definition TestValidationError : pyclass :=
  builtin_class "tests.test_conversion.ValidationError" exception_mro.

Definition both_installed : environment := Environment true true.

(** The field types of the test classes: [age] is an optional integer,
    every other field a string. *)
Definition field_accepts (name : string) (v : pyvalue) : bool :=
  if decide (name = "age") then
    match v with
    | VInt _ | VNone => true
    | _ => false
    end
  else
    match v with
    | VStr _ => true
    | _ => false
    end.

(** Does [items] give each declared field of [c], in order, a value of
    its type? *)
Definition fields_accept (c : pyclass) (items : list (string * pyvalue)) : bool :=
  bool_decide (items.*1 = cls_fields c)
  && forallb (fun kv => field_accepts kv.1 kv.2) items.

(** Dumping an instance of a test class gives the dict of its fields;
    loading checks the fields against the class and rebuilds it. *)
Definition test_dump (v : pyvalue) : outcome pyvalue :=
  match v with
  | VObj _ attrs => Ok (VDict attrs)
  | _ => Ok v
  end.

Definition test_load (error : pyclass) (c : pyclass) (data : pyvalue)
    : outcome pyvalue :=
  match data with
  | VDict items =>
      if fields_accept c items then Ok (VObj c items)
      else raise_msg error "validation error"
  | _ => raise_msg error "validation error"
  end.

(** humps on the flat dicts of the tests: the keys are rewritten, the
    values are left alone. *)
Definition map_keys (f : string → string) (v : pyvalue) : pyvalue :=
  match v with
  | VDict items => VDict (map (fun kv => (f kv.1, kv.2)) items)
  | _ => v
  end.

Fixpoint camel_case (s : string) : string :=
  match s with
  | EmptyString => EmptyString
  | String c s' =>
      if Ascii.eqb c "_" then
        match s' with
        | EmptyString => String c EmptyString
        | String c' s'' => String (ascii_upper c') (camel_case s'')
        end
      else String c (camel_case s')
  end.

Fixpoint snake_case (s : string) : string :=
  match s with
  | EmptyString => EmptyString
  | String c s' =>
      if Ascii.eqb (ascii_lower c) c then String c (snake_case s')
      else String "_" (String (ascii_lower c) (snake_case s'))
  end.

Definition kebab_case (s : string) : string :=
  str_map (fun c => if Ascii.eqb c "_" then "-"%char else c) s.

(** pydantic's validation in the tests: a dict is checked against the
    class and built as by [test_load]; an instance of the class itself
    is returned as it is. *)
Definition test_validate (c : pyclass) (data : pyvalue) : outcome pyvalue :=
  match data with
  | VObj c' _ =>
      if decide (c' = c) then Ok data
      else raise_msg (PydanticValidationError (Environment true true))
             "validation error"
  | _ => test_load (PydanticValidationError (Environment true true)) c data
  end.

Definition test_libraries : libraries := {|
  RootModel_model_dump := test_dump;
  BaseModel_model_dump := fun raw _ => test_dump raw;
  TypeAdapter_dump_python := fun _ raw => test_dump raw;
  TypeAdapter_validate_python := test_validate;
  msgspec_to_builtins := test_dump;
  msgspec_convert := fun data c =>
    test_load (MsgSpecValidationError both_installed) c data;
  humps_camelize := map_keys camel_case;
  humps_kebabize := map_keys kebab_case;
  humps_decamelize := map_keys snake_case;
  instantiate := fun c kwargs =>
    if fields_accept c kwargs then Ok (VObj c kwargs)
    else raise_msg TypeError "__init__() got unexpected arguments";
  dataclasses_asdict := test_dump;
  BaseModel_dict := test_dump;
  re_sub := fun _ _ s => s;
|}.

(** [type_(name="bob", age=2)] *)
Definition bob (c : pyclass) : pyvalue :=
  VObj c [("name", VStr "bob"); ("age", VInt 2)].

(** A schema as pydantic writes it, with a nested definition, at address
    1 of a store; its "definitions" dict is at address 2. *)
Definition details_schema : list (string * sval) :=
  [("title", SStr "Details"); ("type", SStr "object");
   ("definitions", SRef 2%positive)].

Definition schema_store : store :=
  <[1%positive := SDict details_schema]>
    (<[2%positive := SDict [("Item", SRef 3%positive)]]>
       (<[3%positive := SDict [("type", SStr "string")]]> ∅)).

(** A route answering GET, HEAD and OPTIONS (the last added by the
    router), whose view function declares [details_schema] for status
    200, in an application that has no other route. *)
Definition details_rule : rule :=
  Rule "details" "/details" ["GET"; "HEAD"; "OPTIONS"] true [].

Definition details_view : view_function :=
  ViewFunction (Some ["Details."]) [(200, SRef 1%positive)] None None.

Definition details_app : QuartSchema := {|
  app_url_rules := [details_rule];
  app_view_functions := [("details", details_view)];
  title := "tests";
  version := "0.1.0";
|}.

(** A second route on the same path and method, with another view
    function. *)
Definition details_rule_again : rule :=
  Rule "details_again" "/details" ["GET"] true [].

Definition details_view_again : view_function :=
  ViewFunction (Some ["Details, again."]) [(200, SRef 1%positive)] None None.

Definition details_app_twice : QuartSchema := {|
  app_url_rules := [details_rule; details_rule_again];
  app_view_functions :=
    [("details", details_view); ("details_again", details_view_again)];
  title := "tests";
  version := "0.1.0";
|}.

(** Schema generators in the shape the tests expect: an object schema
    titled after the class; msgspec files it under the class name. *)
Definition test_schema (c : pyclass) : pyvalue :=
  VDict [("title", VStr (cls_name c)); ("type", VStr "object")].

Definition test_schema_libraries : schema_libraries := {|
  TypeAdapter_json_schema := fun c _ => Ok (test_schema c);
  msgspec_schema_components := fun types _ =>
    Ok (VDict [("$ref", VStr "#")] :: [],
        map (fun c => (cls_name c, test_schema c)) types);
|}.

Definition only_msgspec : environment := Environment false true.
Definition only_pydantic : environment := Environment true false.

(** A view function whose docstring is the empty string, on a route of
    its own after [details_rule]. *)
Definition silent_view : view_function :=
  ViewFunction (Some []) [(200, SRef 1%positive)] None None.

Definition silent_rule : rule := Rule "silent" "/silent" ["GET"] true [].

Definition silent_app : QuartSchema := {|
  app_url_rules := [details_rule; silent_rule];
  app_view_functions := [("details", details_view); ("silent", silent_view)];
  title := "tests";
  version := "0.1.0";
|}.

(** A querystring schema with two properties, at address 4 of a store
    that extends [schema_store], and a view function declaring it. *)
Definition query_schema : list (string * sval) :=
  [("title", SStr "Query"); ("type", SStr "object");
   ("properties", SRef 5%positive)].

Definition query_properties : list (string * sval) :=
  [("count_le", SRef 6%positive); ("count_gt", SRef 6%positive)].

Definition query_store : store :=
  <[4%positive := SDict query_schema]>
    (<[5%positive := SDict query_properties]>
       (<[6%positive := SDict [("type", SStr "integer")]]> schema_store)).

Definition query_view : view_function :=
  ViewFunction None [] None (Some (SRef 4%positive)).

(** A view function declaring [details_schema], which has no
    properties, for its query string. *)
Definition bad_query_view : view_function :=
  ViewFunction None [] None (Some (SRef 1%positive)).

(** [werkzeug.datastructures.Headers]: neither a dict nor a model. *)
Definition werkzeug_Headers : pyclass :=
  builtin_class "werkzeug.datastructures.Headers" ["object"].

(** A dataclass deriving from DCDetails. *)
Definition DCDetailsChild : pyclass :=
  PyClass "tests.helpers.DCDetailsChild"
    ["tests.helpers.DCDetails"; "object"] false true false ["name"; "age"].

(** * Properties *)

(** ** Class tests that hold in every environment *)

Lemma issubclass_refl c : issubclass c c = true.
Proof. unfold issubclass. apply bool_decide_eq_true. left. Qed.

Lemma class_isinstance_list_dict_false c : class_isinstance_list_dict c = false.
Proof. reflexivity. Qed.

Example test_model_load_pydetails :
  model_load both_installed test_libraries
    (VDict [("name", VStr "bob"); ("age", VInt 2)]) PyDetails
    TestValidationError false None = Ok (bob PyDetails).
Proof. vm_compute. reflexivity. Qed.

Example test_model_load_error_mdetails :
  model_load both_installed test_libraries
    (VDict [("name", VStr "bob"); ("age", VStr "two")]) MDetails
    TestValidationError false None
  = Raise (Exn TestValidationError
             [ArgExn (Exn (MsgSpecValidationError both_installed)
                        [ArgStr "validation error"] None)]
             (Some (Exn (MsgSpecValidationError both_installed)
                      [ArgStr "validation error"] None))).
Proof. vm_compute. reflexivity. Qed.

(** ** model_load: what becomes of an exception *)

Lemma type_error_is_load_error env msg ctx :
  existsb (exn_isinstance (Exn TypeError msg ctx)) (load_errors env) = true.
Proof. reflexivity. Qed.

(** A target class that neither condition of the dispatch accepts: the
    TypeError of line 195 is raised inside the [try], so the [except] of
    line 196 takes it and [exception_class] comes out. *)
Lemma model_load_unrecognized env L data model_class exception_class
    decamelize preference :
  loads_with_pydantic env model_class preference = false →
  loads_with_msgspec env model_class preference = false →
  let error := Exn TypeError [ArgStr ("Cannot load " +:+ class_repr model_class)] None in
  model_load env L data model_class exception_class decamelize preference
  = Raise (Exn exception_class [ArgExn error] (Some error)).
Proof.
  intros Hp Hm. unfold model_load. rewrite Hp, Hm. reflexivity.
Qed.

(** C1 (the code departs from the claim).  The claim: a target type of no
    recognized kind makes model_load raise a plain TypeError, never an
    instance of the caller's exception class.  The code, at the target
    [int] with the test-suite's ValidationError: the exception that
    leaves model_load is a ValidationError built from the TypeError, and
    its class is not TypeError. *)
Theorem model_load_int_raises_exception_class :
  let error := Exn TypeError [ArgStr "Cannot load <class 'int'>"] None in
  model_load both_installed test_libraries
    (VDict [("name", VStr "bob"); ("age", VInt 2)]) int_
    TestValidationError false None
  = Raise (Exn TestValidationError [ArgExn error] (Some error))
  ∧ TestValidationError ≠ TypeError.
Proof. split; [vm_compute; reflexivity | discriminate]. Qed.

(** C3.  When the target class is one the dispatch accepts and the
    conversion it delegates to (validate_python of a pydantic
    TypeAdapter, or msgspec's convert) raises [e], a validation failure,
    a TypeError or a ValueError, then model_load raises one exception:
    an instance of [exception_class] itself, built from [e] and chained
    to it as the error it arose from. *)
Theorem model_load_normalizes_errors env L data model_class exception_class
    (decamelize : bool) preference e :
  let data' := if decamelize then humps_decamelize L data else data in
  (loads_with_pydantic env model_class preference = true
   ∧ validate_python env L model_class data' = Raise e)
  ∨ (loads_with_pydantic env model_class preference = false
     ∧ loads_with_msgspec env model_class preference = true
     ∧ convert env L data' model_class = Raise e) →
  existsb (exn_isinstance e) (load_errors env) = true →
  model_load env L data model_class exception_class decamelize preference
  = Raise (Exn exception_class [ArgExn e] (Some e)).
Proof.
  intros data' Hraise Hcaught. unfold model_load. fold data'.
  destruct Hraise as [[Hp He] | (Hp & Hm & He)].
  - rewrite Hp, He. unfold try_except. rewrite Hcaught. reflexivity.
  - rewrite Hp, Hm, He. unfold try_except. rewrite Hcaught. reflexivity.
Qed.

Lemma model_load_normalizes_errors_witness :
  let e := Exn (PydanticValidationError both_installed)
             [ArgStr "validation error"] None in
  model_load both_installed test_libraries
    (VDict [("name", VStr "bob"); ("age", VStr "two")]) PyDetails
    TestValidationError false None
  = Raise (Exn TestValidationError [ArgExn e] (Some e)).
Proof.
  intros e.
  apply (model_load_normalizes_errors both_installed test_libraries
           (VDict [("name", VStr "bob"); ("age", VStr "two")]) PyDetails
           TestValidationError false None e).
  - left. split; reflexivity.
  - reflexivity.
Defined.

(** ** model_dump: values of no known kind *)

Lemma model_dump_falls_through env L raw by_alias camelize kebabize preference :
  opaque env raw preference = true →
  model_dump env L raw by_alias camelize kebabize preference = Ok raw.
Proof.
  unfold opaque, model_dump. intros H.
  repeat (apply andb_prop in H; destruct H as [H ?]).
  repeat match goal with
         | Hn : negb ?b = true |- _ =>
             apply negb_true_iff in Hn; rewrite Hn; clear Hn
         end.
  reflexivity.
Qed.

(** C6.  A value that no branch of model_dump takes is returned as it
    is, whatever by_alias, camelize and kebabize are: no casing is
    applied even when asked for, the call does not raise, and no library
    is consulted. *)
Theorem model_dump_opaque env L raw preference :
  opaque env raw preference = true →
  ∀ by_alias camelize kebabize,
    model_dump env L raw by_alias camelize kebabize preference = Ok raw.
Proof. intros H by_alias camelize kebabize. by apply model_dump_falls_through. Qed.

Lemma model_dump_opaque_witness :
  model_dump both_installed test_libraries (VStr "x_info") false true true None
  = Ok (VStr "x_info").
Proof.
  apply (model_dump_opaque both_installed test_libraries (VStr "x_info") None).
  reflexivity.
Defined.

Lemma model_dump_None env L by_alias camelize kebabize preference :
  model_dump env L VNone by_alias camelize kebabize preference = Ok VNone.
Proof.
  apply model_dump_falls_through.
  destruct env as [[] []]; reflexivity.
Qed.

Ltac dump_branch :=
  match goal with
  | |- context [mbind _ ?r] => destruct r; reflexivity
  end.

(** With kebabize set and camelize not, model_dump is the plain
    serialization followed by humps.kebabize; a value of no known kind
    is exempt. *)
Lemma model_dump_kebabize env L raw by_alias preference :
  model_dump env L raw by_alias false true preference
  = (value ← model_dump env L raw by_alias false false preference;
     Ok (if opaque env raw preference then value else humps_kebabize L value)).
Proof.
  unfold model_dump, opaque, apply_casing, instance_is_pydantic_dataclass.
  cbn [negb andb]. cbv iota.
  destruct (isinstance raw (BaseModel env));
    [cbn [negb andb]; dump_branch|].
  destruct (isinstance raw (Struct env) || is_attrs env (type_of raw));
    [cbn [negb andb]; dump_branch|].
  destruct ((isinstance_list_dict raw || is_dataclass (type_of raw))
            && PYDANTIC_INSTALLED env && preference_ne preference "msgspec");
    [cbn [negb andb]; dump_branch|].
  destruct ((isinstance_list_dict raw || is_dataclass (type_of raw))
            && MSGSPEC_INSTALLED env && preference_ne preference "pydantic");
    [cbn [negb andb]; dump_branch|].
  reflexivity.
Qed.

(** ** convert_response_return_value *)

Lemma isinstance_int_not_None v : isinstance v int_ = true → is_not_None v = true.
Proof. destruct v; [discriminate|reflexivity..]. Qed.

Lemma dump_headers_None env L cfg : dump_headers env L cfg VNone = Ok VNone.
Proof. apply model_dump_None. Qed.

Lemma convert_response_bare env L cfg body :
  (∀ items, body ≠ VTuple items) →
  isinstance body HTTPException = false →
  convert_response_return_value env L cfg body = dump_body env L cfg body.
Proof.
  intros Hnt Hex. unfold convert_response_return_value. rewrite Hex.
  assert (Hu : unpack_result body = (Some body, VNone, VNone)).
  { destruct body; try reflexivity. exfalso. eapply Hnt. reflexivity. }
  rewrite Hu. cbv beta iota. rewrite dump_headers_None.
  cbn [mbind outcome_bind].
  destruct (dump_body env L cfg body); [|reflexivity].
  cbn [mbind outcome_bind].
  destruct body; try reflexivity. exfalso. eapply Hnt. reflexivity.
Qed.

Lemma convert_response_status env L cfg body status :
  isinstance status int_ = true →
  convert_response_return_value env L cfg (VTuple [body; status])
  = (value ← dump_body env L cfg body; Ok (VTuple [value; status])).
Proof.
  intros Hint. unfold convert_response_return_value.
  change (isinstance (VTuple [body; status]) HTTPException) with false.
  cbv beta iota. unfold unpack_result. rewrite Hint. cbv beta iota.
  rewrite dump_headers_None, (isinstance_int_not_None _ Hint).
  reflexivity.
Qed.

Lemma convert_response_headers env L cfg body headers :
  isinstance headers int_ = false →
  convert_response_return_value env L cfg (VTuple [body; headers])
  = (value ← dump_body env L cfg body;
     headers ← dump_headers env L cfg headers;
     Ok (VTuple [value; headers])).
Proof.
  intros Hint. unfold convert_response_return_value.
  change (isinstance (VTuple [body; headers]) HTTPException) with false.
  cbv beta iota. unfold unpack_result. rewrite Hint. reflexivity.
Qed.

Lemma convert_response_triple env L cfg body status headers :
  convert_response_return_value env L cfg (VTuple [body; status; headers])
  = (value ← dump_body env L cfg body;
     headers ← dump_headers env L cfg headers;
     Ok (VTuple [value; status; headers])).
Proof. reflexivity. Qed.

(** An HTTPException is returned as it is. *)
Lemma convert_response_exception env L cfg result :
  isinstance result HTTPException = true →
  convert_response_return_value env L cfg result = Ok result.
Proof. intros H. unfold convert_response_return_value. by rewrite H. Qed.

(** A tuple of any other length: [value] was never assigned. *)
Lemma convert_response_other_length env L cfg items :
  length items ≠ 2%nat → length items ≠ 3%nat →
  convert_response_return_value env L cfg (VTuple items)
  = unbound_local "value".
Proof.
  intros H2 H3. unfold convert_response_return_value.
  change (isinstance (VTuple items) HTTPException) with false.
  destruct items as [|a [|b [|c [|d items]]]]; try reflexivity;
    simpl in *; congruence.
Qed.

(** C4.  convert_response_return_value keeps the shape of the handler's
    return value.  A bare value gives the serialized value; a pair gives
    a pair, whose second element is kept as the status exactly when it
    is an integer and is otherwise serialized as headers; a triple gives
    a triple with the status as it came.  In each case the body is what
    model_dump makes of it under the configured casing, alias and
    preference settings ([dump_body]), and an exception of model_dump
    is the exception of the call. *)
Theorem convert_response_return_value_shape env L cfg :
  (∀ body,
     (∀ items, body ≠ VTuple items) →
     isinstance body HTTPException = false →
     convert_response_return_value env L cfg body = dump_body env L cfg body)
  ∧ (∀ body second,
       convert_response_return_value env L cfg (VTuple [body; second])
       = if isinstance second int_
         then value ← dump_body env L cfg body; Ok (VTuple [value; second])
         else value ← dump_body env L cfg body;
              headers ← dump_headers env L cfg second;
              Ok (VTuple [value; headers]))
  ∧ (∀ body status headers,
       convert_response_return_value env L cfg (VTuple [body; status; headers])
       = (value ← dump_body env L cfg body;
          headers ← dump_headers env L cfg headers;
          Ok (VTuple [value; status; headers]))).
Proof.
  split; [|split].
  - intros body Hnt Hex. apply convert_response_bare; assumption.
  - intros body second. destruct (isinstance second int_) eqn:Hint.
    + apply convert_response_status. assumption.
    + apply convert_response_headers. assumption.
  - intros. apply convert_response_triple.
Qed.

Lemma convert_response_return_value_shape_witness :
  convert_response_return_value both_installed test_libraries
    (Config false false None) (bob DCDetails)
  = Ok (VDict [("name", VStr "bob"); ("age", VInt 2)]).
Proof.
  apply (proj1 (convert_response_return_value_shape both_installed
                  test_libraries (Config false false None)) (bob DCDetails)).
  - intros items. discriminate.
  - reflexivity.
Defined.

(** The return value of the specification's example, with camel casing
    configured: the status is untouched, the header key is in kebab
    case. *)
Example convert_response_triple_example :
  convert_response_return_value both_installed test_libraries
    (Config true false None)
    (VTuple [bob DCDetails; VInt 201; VDict [("x_id", VStr "1")]])
  = Ok (VTuple [VDict [("name", VStr "bob"); ("age", VInt 2)]; VInt 201;
                VDict [("x-id", VStr "1")]]).
Proof. vm_compute. reflexivity. Qed.

Example convert_response_bool_status :
  convert_response_return_value both_installed test_libraries
    (Config false false None) (VTuple [VDict []; VBool true])
  = Ok (VTuple [VDict []; VBool true]).
Proof. vm_compute. reflexivity. Qed.

(** The values model_dump passes through, lists and dicts apart, are
    those whose class it does not serialize. *)
Lemma opaque_serialized env v preference :
  isinstance_list_dict v = false →
  opaque env v preference = negb (serialized env (type_of v) preference).
Proof.
  intros Hld.
  unfold opaque, serialized, backend_available, instance_is_pydantic_dataclass,
    isinstance.
  rewrite Hld.
  destruct (issubclass (type_of v) (BaseModel env)),
    (issubclass (type_of v) (Struct env)), (is_attrs env (type_of v)),
    (is_dataclass (type_of v)), (PYDANTIC_INSTALLED env),
    (MSGSPEC_INSTALLED env), (preference_ne preference "msgspec"),
    (preference_ne preference "pydantic"); reflexivity.
Qed.

(** A dict is serialized exactly when a library is installed that the
    preference allows. *)
Lemma opaque_dict env items preference :
  opaque env (VDict items) preference = negb (backend_available env preference).
Proof.
  unfold opaque, backend_available, instance_is_pydantic_dataclass.
  destruct env as [[] []];
    destruct (preference_ne preference "msgspec"),
      (preference_ne preference "pydantic"); reflexivity.
Qed.

(** C5 (amended).  Whatever QUART_SCHEMA_CONVERT_CASING is, the headers
    of a return value (the third element of a triple, or the second of
    a pair when it is not an integer) come back as model_dump with
    kebabize set and camelize not; the casing setting reaches the body
    only.  Headers that model_dump serializes come back as their plain
    serialization with humps.kebabize on top; headers of no kind that
    model_dump knows come back as they are, their keys untouched.  A
    dict is of the first sort exactly when a library is installed that
    the preference allows; an object that is neither a list, a dict nor
    a model of a class that model_dump serializes is of the second. *)
Theorem response_headers_kebabized env L (casing by_alias : bool)
    preference body status headers :
  let cfg := Config casing by_alias preference in
  let serialized_headers :=
    value ← model_dump env L headers by_alias false false preference;
    Ok (if opaque env headers preference then value
        else humps_kebabize L value) in
  convert_response_return_value env L cfg (VTuple [body; status; headers])
  = (value ← model_dump env L body by_alias casing false preference;
     headers ← serialized_headers;
     Ok (VTuple [value; status; headers]))
  ∧ (isinstance headers int_ = false →
     convert_response_return_value env L cfg (VTuple [body; headers])
     = (value ← model_dump env L body by_alias casing false preference;
        headers ← serialized_headers;
        Ok (VTuple [value; headers])))
  ∧ (opaque env headers preference = true →
     model_dump env L headers by_alias false false preference = Ok headers)
  ∧ (∀ items,
       opaque env (VDict items) preference
       = negb ((PYDANTIC_INSTALLED env && preference_ne preference "msgspec")
               || (MSGSPEC_INSTALLED env && preference_ne preference "pydantic")))
  ∧ (isinstance_list_dict headers = false →
     opaque env headers preference
     = negb (issubclass (type_of headers) (BaseModel env)
             || issubclass (type_of headers) (Struct env)
             || is_attrs env (type_of headers)
             || (is_dataclass (type_of headers)
                 && ((PYDANTIC_INSTALLED env && preference_ne preference "msgspec")
                     || (MSGSPEC_INSTALLED env
                         && preference_ne preference "pydantic"))))).
Proof.
  intros cfg serialized_headers. unfold serialized_headers.
  rewrite <- model_dump_kebabize. split; [|split; [|split; [|split]]].
  - apply convert_response_triple.
  - intros Hint. apply convert_response_headers. assumption.
  - by apply model_dump_falls_through.
  - intros items. apply opaque_dict.
  - intros Hld. by rewrite opaque_serialized.
Qed.

Lemma response_headers_kebabized_witness :
  convert_response_return_value both_installed test_libraries
    (Config true false None)
    (VTuple [bob PyDetails; VObj PyHeaders [("x_info", VStr "1")]])
  = Ok (VTuple [VDict [("name", VStr "bob"); ("age", VInt 2)];
                VDict [("x-info", VStr "1")]]).
Proof.
  apply (proj1 (proj2 (response_headers_kebabized both_installed test_libraries
                         true false None (bob PyDetails) VNone
                         (VObj PyHeaders [("x_info", VStr "1")])))).
  reflexivity.
Defined.

(** C5, as first stated, does not hold of every headers value.  A dict
    of headers is returned with its keys as they came when no library is
    left under the preference (here pydantic alone and the preference
    "msgspec"), and a werkzeug Headers object is returned as it is with
    both libraries installed; humps.kebabize would have rewritten the
    key. *)
Lemma response_headers_left_alone :
  humps_kebabize test_libraries (VDict [("x_info", VStr "1")])
  = VDict [("x-info", VStr "1")]
  ∧ convert_response_return_value only_pydantic test_libraries
      (Config false false (Some "msgspec"))
      (VTuple [VStr "ok"; VDict [("x_info", VStr "1")]])
    = Ok (VTuple [VStr "ok"; VDict [("x_info", VStr "1")]])
  ∧ convert_response_return_value both_installed test_libraries
      (Config false false None)
      (VTuple [VStr "ok"; VObj werkzeug_Headers []])
    = Ok (VTuple [VStr "ok"; VObj werkzeug_Headers []]).
Proof. repeat split. Qed.

(** ** WebsocketMixin.send_as *)

(** C10.  A value that is not a dict and whose class is not model_class
    itself makes send_as raise SchemaValidationError, and nothing is
    sent.  An instance of a class that derives from model_class without
    being it is such a value. *)
Theorem send_as_rejects_other_types L ws value model_class :
  (∀ items, value ≠ VDict items) →
  type_of value ≠ model_class →
  send_as L ws value model_class = Raise (Exn SchemaValidationError [] None)
  ∧ (issubclass (type_of value) model_class = true →
     send_as L ws value model_class = Raise (Exn SchemaValidationError [] None)).
Proof.
  intros Hnd Hty.
  assert (H : send_as L ws value model_class
              = Raise (Exn SchemaValidationError [] None)).
  { unfold send_as.
    destruct value; try (exfalso; eapply Hnd; reflexivity);
      (destruct (decide (_ = model_class)) as [Heq|_];
       [exfalso; apply Hty; exact Heq | reflexivity]). }
  split; [exact H | intros _; exact H].
Qed.

Lemma send_as_rejects_other_types_witness :
  issubclass DCDetailsChild DCDetails = true
  ∧ send_as test_libraries [] (bob DCDetailsChild) DCDetails
    = Raise (Exn SchemaValidationError [] None).
Proof.
  split; [reflexivity|].
  refine (proj1 (send_as_rejects_other_types test_libraries []
                   (bob DCDetailsChild) DCDetails _ _)).
  - intros items. discriminate.
  - discriminate.
Defined.

Example send_as_same_type :
  send_as test_libraries [] (bob DCDetails) DCDetails
  = Ok [VDict [("name", VStr "bob"); ("age", VInt 2)]].
Proof. vm_compute. reflexivity. Qed.

(** ** Dicts *)

Section dict_facts.
Context {K V : Type} `{EqDecision K}.
Implicit Types (d : list (K * V)) (k : K) (v : V).

Lemma dict_get_set_eq d k v : dict_get k (dict_set d k v) = Some v.
Proof.
  induction d as [|[k' v'] d IH]; simpl.
  - rewrite decide_True; done.
  - destruct (decide (k = k')) as [->|Hne]; simpl.
    + rewrite decide_True; done.
    + rewrite decide_False; done.
Qed.

Lemma dict_get_set_ne d k k' v :
  k ≠ k' → dict_get k' (dict_set d k v) = dict_get k' d.
Proof.
  intros Hne. induction d as [|[k0 v0] d IH]; simpl.
  - rewrite decide_False; [done | congruence].
  - destruct (decide (k = k0)) as [->|Hne0]; simpl.
    + rewrite !decide_False; [done | congruence | congruence].
    + destruct (decide (k' = k0)); done.
Qed.

Lemma dict_get_delete_eq d k : dict_get k (dict_delete k d) = None.
Proof.
  induction d as [|[k' v'] d IH]; simpl; [done|].
  destruct (decide (k = k')) as [->|Hne]; simpl; [done|].
  rewrite decide_False; done.
Qed.

Lemma dict_get_delete_ne d k k' :
  k ≠ k' → dict_get k' (dict_delete k d) = dict_get k' d.
Proof.
  intros Hne. induction d as [|[k0 v0] d IH]; simpl; [done|].
  destruct (decide (k = k0)) as [->|Hne0]; simpl.
  - rewrite decide_False; [done | congruence].
  - destruct (decide (k' = k0)); done.
Qed.

Lemma dict_delete_absent d k : dict_get k d = None → dict_delete k d = d.
Proof.
  induction d as [|[k' v'] d IH]; simpl; [done|].
  destruct (decide (k = k')); [done|]. intros Hd. by rewrite IH.
Qed.

(** Deleting keeps the other items, in their order. *)
Lemma dict_delete_filter d k :
  dict_delete k d = filter (fun kv => kv.1 ≠ k) d.
Proof.
  induction d as [|[k' v'] d IH]; simpl; [done|].
  destruct (decide (k = k')) as [->|Hne].
  - rewrite filter_cons_False; [done | simpl; auto].
  - rewrite filter_cons_True; [by rewrite IH | simpl; congruence].
Qed.

Lemma dict_get_setdefault_is_Some d k v : is_Some (dict_get k (dict_setdefault d k v)).
Proof.
  unfold dict_setdefault. destruct (dict_get k d) eqn:Hd.
  - rewrite Hd. eauto.
  - rewrite dict_get_set_eq. eauto.
Qed.

Lemma dict_get_setdefault_ne d k k' v :
  k ≠ k' → dict_get k' (dict_setdefault d k v) = dict_get k' d.
Proof.
  intros Hne. unfold dict_setdefault. destruct (dict_get k d); [done|].
  by apply dict_get_set_ne.
Qed.

End dict_facts.

(** ** _split_definitions *)

Lemma alloc_fresh (h : store) o : h !! (alloc h o).1 = None.
Proof. simpl. apply not_elem_of_dom, is_fresh. Qed.

(** C9.  For a schema stored at [s] with the items [items],
    _split_definitions returns the pair of: the value under
    "definitions" (or a new empty dict when there is none), and a new
    dict holding the items of the schema without "definitions", the
    others unchanged and in their order.  The dict at [s], like every
    object that existed before the call, is as it was. *)
Theorem _split_definitions_spec (h : store) (s : loc)
    (items : list (string * sval)) :
  h !! s = Some (SDict items) →
  ∃ definitions new_schema h',
    _split_definitions (SRef s) h = Ok ((definitions, SRef new_schema), h')
    ∧ match dict_get "definitions" items with
      | Some v => definitions = v
      | None => ∃ d, definitions = SRef d ∧ h !! d = None
                     ∧ h' !! d = Some (SDict [])
      end
    ∧ h !! new_schema = None
    ∧ h' !! new_schema = Some (SDict (dict_delete "definitions" items))
    ∧ dict_get "definitions" (dict_delete "definitions" items) = None
    ∧ (∀ k, k ≠ "definitions" →
            dict_get k (dict_delete "definitions" items) = dict_get k items)
    ∧ h' !! s = Some (SDict items)
    ∧ (∀ l o, h !! l = Some o → h' !! l = Some o).
Proof.
  intros Hs. unfold _split_definitions, dict_copy, dict_pop.
  rewrite Hs. cbn [mbind outcome_bind alloc].
  set (l1 := fresh (dom h)).
  set (h1 := <[l1 := SDict items]> h).
  set (l2 := fresh (dom h1)).
  set (h2 := <[l2 := SDict []]> h1).
  assert (Hl1 : h !! l1 = None) by apply not_elem_of_dom, is_fresh.
  assert (Hl2 : h1 !! l2 = None) by apply not_elem_of_dom, is_fresh.
  assert (Hne12 : l2 ≠ l1).
  { intros ->. unfold h1 in Hl2. by rewrite lookup_insert_eq in Hl2. }
  assert (Hl2h : h !! l2 = None).
  { unfold h1 in Hl2. by rewrite lookup_insert_ne in Hl2. }
  assert (Hh2l1 : h2 !! l1 = Some (SDict items)).
  { unfold h2, h1. rewrite lookup_insert_ne by done. apply lookup_insert_eq. }
  assert (Hkeep : ∀ l o, h !! l = Some o → h2 !! l = Some o).
  { intros l o Hl. unfold h2, h1.
    rewrite !lookup_insert_ne; [done | congruence | congruence]. }
  rewrite Hh2l1.
  destruct (dict_get "definitions" items) as [v|] eqn:Hdef;
    cbn [mbind outcome_bind].
  - eexists v, l1, _. split; [reflexivity|].
    split; [reflexivity|]. split; [exact Hl1|].
    split; [apply lookup_insert_eq|].
    split; [apply dict_get_delete_eq|].
    split; [intros k Hk; apply dict_get_delete_ne; congruence|].
    assert (Hkeep' : ∀ l o, h !! l = Some o →
              <[l1 := SDict (dict_delete "definitions" items)]> h2 !! l = Some o).
    { intros l o Hl. rewrite lookup_insert_ne by congruence. by apply Hkeep. }
    split; [by apply Hkeep' | exact Hkeep'].
  - eexists (SRef l2), l1, h2. split; [reflexivity|].
    split; [exists l2; split; [done|]; split; [done|]; apply lookup_insert_eq|].
    split; [exact Hl1|].
    split; [by rewrite dict_delete_absent|].
    split; [apply dict_get_delete_eq|].
    split; [intros k Hk; apply dict_get_delete_ne; congruence|].
    split; [by apply Hkeep | exact Hkeep].
Qed.

Lemma _split_definitions_spec_witness :
  schema_store !! 1%positive = Some (SDict details_schema)
  ∧ ∃ new_schema h',
      _split_definitions (SRef 1%positive) schema_store
      = Ok ((SRef 2%positive, SRef new_schema), h')
      ∧ h' !! new_schema
        = Some (SDict [("title", SStr "Details"); ("type", SStr "object")])
      ∧ h' !! 1%positive = Some (SDict details_schema).
Proof.
  split; [reflexivity|].
  destruct (_split_definitions_spec schema_store 1%positive details_schema eq_refl)
    as (definitions & new_schema & h' & Hrun & Hdef & _ & Hnew & _ & _ & Hs & _).
  simpl in Hdef. subst definitions.
  exists new_schema, h'. split; [exact Hrun|]. split; [exact Hnew | exact Hs].
Defined.

(** ** convert_headers *)







































(** Past the ASCII letters: "X-É" gives "x_é" (É is the code point 201,
    é is 233), and a name that is numeric once its white space is gone
    is kept as it came. *)
Example header_field_name_other_names :
  header_field_name
    (String "X" (String "-" (String (ascii_of_nat 201%nat) EmptyString)))
  = String "x" (String "_" (String (ascii_of_nat 233%nat) EmptyString))
  ∧ header_field_name "1 2" = "1 2".
Proof. split; reflexivity. Qed.

Example test_convert_headers :
  Forall (fun type_ =>
            convert_headers both_installed test_libraries
              (HeadersDict [("X-Info", VStr "ABC"); ("Other", VStr "2")])
              type_ TestValidationError
            = Ok (VObj type_ [("x_info", VStr "ABC")]))
    [AHeaders; DCHeaders; MHeaders; PyHeaders; PyDCHeaders].
Proof. repeat constructor. Qed.

Example convert_headers_multi_valued :
  convert_headers both_installed test_libraries
    (Headers [("X-Info", "a"); ("Other", "2"); ("x-info", "b")])
    MHeaders TestValidationError
  = Ok (VObj MHeaders [("x_info", VStr "a,b")]).
Proof. vm_compute. reflexivity. Qed.

Example convert_headers_unrecognized :
  convert_headers both_installed test_libraries (HeadersDict []) int_
    TestValidationError
  = Raise (Exn TypeError [ArgStr "Cannot convert to <class 'int'>"] None).
Proof. vm_compute. reflexivity. Qed.

(** ** openapi: the methods of a route *)

Lemma operation_at_set paths path methods key po path' key' :
  dict_get path paths = Some methods →
  operation_at (dict_set paths path (dict_set methods key po)) path' key'
  = if bool_decide (path' = path ∧ key' = key) then Some po
    else operation_at paths path' key'.
Proof.
  intros Hpath. unfold operation_at.
  destruct (decide (path' = path)) as [->|Hne].
  - rewrite dict_get_set_eq, Hpath. simpl.
    destruct (decide (key' = key)) as [->|Hk].
    + rewrite dict_get_set_eq. by rewrite bool_decide_eq_true_2.
    + rewrite dict_get_set_ne by done.
      rewrite bool_decide_eq_false_2; [done | tauto].
  - rewrite dict_get_set_ne by done.
    rewrite bool_decide_eq_false_2; [done | tauto].
Qed.

(** Lines 243-246 over any list of methods. *)
Lemma attach_methods_from rule path po methods paths :
  is_Some (dict_get path paths) →
  ∃ paths',
    for_each methods
      (fun paths method =>
         if skipped rule method then Ok paths
         else set_operation paths path (str_lower method) po)
      paths = Ok paths'
    ∧ is_Some (dict_get path paths')
    ∧ ∀ path' key,
        operation_at paths' path' key
        = if bool_decide
               (path' = path
                ∧ key ∈ str_lower
                    <$> filter (fun method => skipped rule method = false) methods)
          then Some po
          else operation_at paths path' key.
Proof.
  revert paths. induction methods as [|m methods IH]; intros paths Hpath.
  - exists paths. split; [done|]. split; [done|]. intros path' key.
    rewrite bool_decide_eq_false_2; [done|].
    intros [_ H]. by apply elem_of_nil in H.
  - cbn [for_each]. rewrite filter_cons.
    destruct (skipped rule m) eqn:Hskip.
    + cbn [mbind outcome_bind]. rewrite decide_False by done.
      apply IH, Hpath.
    + destruct Hpath as [ms Hms].
      assert (Hstep : set_operation paths path (str_lower m) po
                      = Ok (dict_set paths path (dict_set ms (str_lower m) po))).
      { unfold set_operation. by rewrite Hms. }
      rewrite Hstep. cbn [mbind outcome_bind]. rewrite decide_True by done.
      destruct (IH (dict_set paths path (dict_set ms (str_lower m) po)))
        as (paths' & Hrun & Hsome & Hget).
      { rewrite dict_get_set_eq. eauto. }
      exists paths'. split; [exact Hrun|]. split; [exact Hsome|].
      intros path' key. rewrite Hget, (operation_at_set _ _ _ _ _ _ _ Hms).
      rewrite fmap_cons.
      set (keys := str_lower <$> filter _ methods).
      rewrite (bool_decide_ext (path' = path ∧ key ∈ str_lower m :: keys)
                 ((path' = path ∧ key ∈ keys)
                  ∨ (path' = path ∧ key = str_lower m)));
        [|rewrite elem_of_cons; tauto].
      rewrite bool_decide_or.
      by destruct (bool_decide (path' = path ∧ key ∈ keys)).
Qed.

Lemma attach_methods_spec rule path po paths :
  is_Some (dict_get path paths) →
  ∃ paths',
    attach_methods rule path po paths = Ok paths'
    ∧ ∀ path' key,
        operation_at paths' path' key
        = if bool_decide (path' = path ∧ key ∈ written_keys rule)
          then Some po
          else operation_at paths path' key.
Proof.
  intros Hpath.
  destruct (attach_methods_from rule path po (rule_methods rule) paths Hpath)
    as (paths' & Hrun & _ & Hget).
  exists paths'. split; [exact Hrun | exact Hget].
Qed.

Lemma operation_at_setdefault paths path path' key :
  operation_at (dict_setdefault paths path []) path' key
  = operation_at paths path' key.
Proof.
  unfold operation_at, dict_setdefault.
  destruct (dict_get path paths) eqn:Hpath; [done|].
  destruct (decide (path = path')) as [<-|Hne].
  - by rewrite dict_get_set_eq, Hpath.
  - by rewrite dict_get_set_ne.
Qed.

(** The keys written for a route, by its methods. *)
Lemma elem_of_written_keys rule key :
  key ∈ written_keys rule
  ↔ ∃ method, method ∈ rule_methods rule
              ∧ method ≠ "HEAD"
              ∧ ¬ (method = "OPTIONS" ∧ rule_provide_automatic_options rule = true)
              ∧ key = str_lower method.
Proof.
  unfold written_keys. rewrite list_elem_of_fmap.
  split.
  - intros (method & -> & [Hskip Hin]%list_elem_of_filter). exists method.
    unfold skipped in Hskip.
    apply orb_false_iff in Hskip as [Hhead Hopt].
    apply bool_decide_eq_false in Hhead.
    split; [done|]. split; [done|]. split; [|done].
    intros [-> Hauto]. rewrite Hauto in Hopt. done.
  - intros (method & Hin & Hhead & Hopt & ->). exists method.
    split; [done|]. apply list_elem_of_filter. split; [|done].
    unfold skipped. apply orb_false_iff. split.
    + by apply bool_decide_eq_false.
    + destruct (rule_provide_automatic_options rule);
        [|by rewrite andb_false_r].
      rewrite andb_true_r. apply bool_decide_eq_false. tauto.
Qed.

Lemma for_each_app {A S} (xs ys : list A) (body : S → A → outcome S) acc :
  for_each (xs ++ ys) body acc = (acc ← for_each xs body acc; for_each ys body acc).
Proof.
  revert acc. induction xs as [|x xs IH]; intros acc; [done|].
  simpl. destruct (body acc x); simpl; [apply IH | done].
Qed.

(** One turn of the loop over the rules, for a route with schemas whose
    operation object is [po]. *)
Lemma openapi_rule_spec L view_functions st rule func po schemas' h' :
  dict_get (rule_endpoint rule) view_functions = Some func →
  no_schemas func = false →
  build_path_object func rule (schemas st) (heap st) = Ok (po, schemas', h') →
  ∃ paths',
    openapi_rule L view_functions st rule = Ok (Assembly paths' schemas' h')
    ∧ ∀ path key,
        operation_at paths' path key
        = if bool_decide (path = openapi_path L rule ∧ key ∈ written_keys rule)
          then Some po
          else operation_at (paths st) path key.
Proof.
  intros Hfunc Hschemas Hbuild.
  destruct (attach_methods_spec rule (openapi_path L rule) po
              (dict_setdefault (paths st) (openapi_path L rule) []))
    as (paths' & Hrun & Hget).
  { apply dict_get_setdefault_is_Some. }
  exists paths'. split.
  - unfold openapi_rule. rewrite Hfunc. cbn [mbind outcome_bind].
    rewrite Hschemas, Hbuild. cbn [mbind outcome_bind].
    rewrite Hrun. reflexivity.
  - intros path key. rewrite Hget, operation_at_setdefault. reflexivity.
Qed.

(** A turn of the loop changes nothing under a path and key that the
    route does not store under. *)
Lemma openapi_rule_preserves L view_functions st rule st' path key :
  openapi_rule L view_functions st rule = Ok st' →
  ¬ stores_under L view_functions rule path key →
  operation_at (paths st') path key = operation_at (paths st) path key.
Proof.
  intros Hrun Hnot.
  destruct (dict_get (rule_endpoint rule) view_functions) as [func|] eqn:Hfunc;
    [|unfold openapi_rule in Hrun; rewrite Hfunc in Hrun; discriminate].
  destruct (no_schemas func) eqn:Hschemas.
  { unfold openapi_rule in Hrun. rewrite Hfunc in Hrun.
    cbn [mbind outcome_bind] in Hrun. rewrite Hschemas in Hrun. congruence. }
  destruct (build_path_object func rule (schemas st) (heap st))
    as [[[po schemas'] h']|e] eqn:Hbuild.
  - destruct (openapi_rule_spec L view_functions st rule func po schemas' h'
                Hfunc Hschemas Hbuild) as (paths' & Hrun' & Hget).
    rewrite Hrun' in Hrun. injection Hrun as <-. cbn [paths].
    rewrite Hget. rewrite bool_decide_eq_false_2; [done|].
    intros [-> Hkey]. apply Hnot. exists func. done.
  - unfold openapi_rule in Hrun. rewrite Hfunc in Hrun.
    cbn [mbind outcome_bind] in Hrun. rewrite Hschemas, Hbuild in Hrun.
    discriminate.
Qed.

Lemma openapi_rules_preserve L view_functions rules st st' path key :
  for_each rules (openapi_rule L view_functions) st = Ok st' →
  (∀ r, r ∈ rules → ¬ stores_under L view_functions r path key) →
  operation_at (paths st') path key = operation_at (paths st) path key.
Proof.
  revert st. induction rules as [|r rules IH]; intros st Hrun Hnot.
  - simpl in Hrun. congruence.
  - cbn [for_each] in Hrun.
    destruct (openapi_rule L view_functions st r) as [st1|e] eqn:Hstep;
      [|discriminate].
    cbn [mbind outcome_bind] in Hrun.
    rewrite (IH st1 Hrun); [|intros r' Hr'; apply Hnot; by right].
    apply (openapi_rule_preserves _ _ _ _ _ _ _ Hstep). apply Hnot. by left.
Qed.

Lemma stores_under_dec L view_functions rule path key :
  stores_under L view_functions rule path key
  ∨ ¬ stores_under L view_functions rule path key.
Proof.
  unfold stores_under.
  destruct (dict_get (rule_endpoint rule) view_functions) as [func|];
    [|right; intros (? & ? & _); discriminate].
  destruct (no_schemas func) eqn:Hs;
    [right; intros (? & [= <-] & ? & _); congruence|].
  destruct (decide (openapi_path L rule = path)) as [Hp|Hp];
    [|right; intros (? & _ & _ & ? & _); done].
  destruct (decide (key ∈ written_keys rule)) as [Hk|Hk];
    [|right; intros (? & _ & _ & _ & ?); done].
  left. by exists func.
Qed.

(** Every entry of [paths] was stored by one of the routes. *)
Lemma openapi_rules_origin L view_functions rules st st' path key :
  for_each rules (openapi_rule L view_functions) st = Ok st' →
  is_Some (operation_at (paths st') path key) →
  is_Some (operation_at (paths st) path key)
  ∨ ∃ r, r ∈ rules ∧ stores_under L view_functions r path key.
Proof.
  revert st. induction rules as [|r rules IH]; intros st Hrun Hsome.
  - simpl in Hrun. injection Hrun as <-. by left.
  - cbn [for_each] in Hrun.
    destruct (openapi_rule L view_functions st r) as [st1|e] eqn:Hstep;
      [|discriminate].
    cbn [mbind outcome_bind] in Hrun.
    destruct (IH st1 Hrun Hsome) as [Hst1|(r' & Hr' & Hstores)];
      [|right; exists r'; split; [by right | done]].
    destruct (stores_under_dec L view_functions r path key) as [Hyes|Hno].
    + right. exists r. split; [by left | done].
    + left. by rewrite <- (openapi_rule_preserves _ _ _ _ _ _ _ Hstep Hno).
Qed.

Lemma ascii_lower_upper_case c :
  (let n := nat_of_ascii c in negb ((97 <=? n)%nat && (n <=? 122)%nat)) = true →
  (nat_of_ascii (ascii_lower c) <? 128)%nat = true →
  c = ascii_upper (ascii_lower c).
Proof.
  destruct c as [[] [] [] [] [] [] [] []]; vm_compute; intros H1 H2;
    first [reflexivity | discriminate H1 | discriminate H2].
Qed.

(** A method without lower-case letters is determined by its lower-case
    form, when that form is ASCII. *)
Lemma str_lower_upper_case method key :
  no_lower_case method = true → str_isascii key = true →
  str_lower method = key → method = str_upper key.
Proof.
  intros Hup Hascii <-. unfold no_lower_case, str_isascii, str_upper, str_lower in *.
  induction method as [|c method IH]; [done|].
  cbn [str_map str_forall] in *.
  apply andb_true_iff in Hup as [Hc Hup].
  apply andb_true_iff in Hascii as [Hc' Hascii].
  rewrite <- (ascii_lower_upper_case c Hc Hc'). by rewrite <- IH.
Qed.

(** C8 (amended).  Take a route with registered schemas, reached by the
    loop in the state [st], and let [po] be the operation object built
    for it.  The loop stores [po] under the route's path for the
    lower-cased name of each of its methods, passing over HEAD always
    and over OPTIONS exactly when the router provides it automatically,
    and stores nothing else; with methods free of lower-case letters,
    as the router keeps them (it stores their upper-case form), no
    "head" key is written, and "options" is written exactly for an
    OPTIONS method the router does not provide.
    In the document that openapi returns, [po] is found under each of
    these keys unless a later route stores its own operation under the
    same path and key; and every key of the document was stored by some
    route in this way, so that none comes from a HEAD method. *)
Theorem openapi_attaches_methods L self h (pre : list rule) rule post func st
    po schemas' h1 :
  app_url_rules self = (pre ++ rule :: post)%list →
  for_each pre (openapi_rule L (app_view_functions self)) (Assembly [] [] h)
  = Ok st →
  dict_get (rule_endpoint rule) (app_view_functions self) = Some func →
  no_schemas func = false →
  build_path_object func rule (schemas st) (heap st) = Ok (po, schemas', h1) →
  ∃ paths',
    openapi_rule L (app_view_functions self) st rule
    = Ok (Assembly paths' schemas' h1)
    ∧ (∀ path key,
         operation_at paths' path key
         = if bool_decide (path = openapi_path L rule ∧ key ∈ written_keys rule)
           then Some po
           else operation_at (paths st) path key)
    ∧ (∀ key,
         key ∈ written_keys rule
         ↔ ∃ method,
             method ∈ rule_methods rule
             ∧ method ≠ "HEAD"
             ∧ ¬ (method = "OPTIONS"
                  ∧ rule_provide_automatic_options rule = true)
             ∧ key = str_lower method)
    ∧ ((∀ method, method ∈ rule_methods rule → no_lower_case method = true) →
       ("head" ∉ written_keys rule)
       ∧ ("options" ∈ written_keys rule
          ↔ "OPTIONS" ∈ rule_methods rule
            ∧ rule_provide_automatic_options rule = false))
    ∧ (∀ doc h' key,
         openapi L self h = Ok (doc, h') →
         key ∈ written_keys rule →
         (∀ r, r ∈ post →
               ¬ stores_under L (app_view_functions self) r
                   (openapi_path L rule) key) →
         operation_at (doc_paths doc) (openapi_path L rule) key = Some po)
    ∧ (∀ doc h' path key,
         openapi L self h = Ok (doc, h') →
         is_Some (operation_at (doc_paths doc) path key) →
         ∃ r, r ∈ app_url_rules self
              ∧ stores_under L (app_view_functions self) r path key).
Proof.
  intros Hrules Hpre Hfunc Hschemas Hbuild.
  destruct (openapi_rule_spec L (app_view_functions self) st rule func po
              schemas' h1 Hfunc Hschemas Hbuild) as (paths' & Hstep & Hget).
  exists paths'. split; [exact Hstep|]. split; [exact Hget|].
  split; [apply elem_of_written_keys|]. split; [|split].
  - intros Hupper. split.
    + intros (method & Hin & Hhead & _ & Hkey)%elem_of_written_keys.
      apply Hhead.
      apply (str_lower_upper_case method "head");
        [by apply Hupper | reflexivity | done].
    + rewrite elem_of_written_keys. split.
      * intros (method & Hin & _ & Hopt & Hkey).
        assert (method = "OPTIONS") as ->.
        { apply (str_lower_upper_case method "options");
            [by apply Hupper | reflexivity | done]. }
        split; [done|].
        destruct (rule_provide_automatic_options rule); [|done].
        exfalso. by apply Hopt.
      * intros [Hin Hauto]. exists "OPTIONS".
        split; [done|]. split; [done|]. split; [|done].
        intros [_ Hauto']. congruence.
  - intros doc h' key Hdoc Hkey Hlater.
    unfold openapi in Hdoc. rewrite Hrules, for_each_app, Hpre in Hdoc.
    cbn [mbind outcome_bind for_each] in Hdoc. rewrite Hstep in Hdoc.
    cbn [mbind outcome_bind] in Hdoc.
    destruct (for_each post _ _) as [st3|e] eqn:Hpost; [|discriminate].
    cbn [mbind outcome_bind] in Hdoc. injection Hdoc as <- <-.
    cbn [doc_paths].
    rewrite (openapi_rules_preserve _ _ _ _ _ _ _ Hpost Hlater).
    cbn [paths]. rewrite Hget. by rewrite bool_decide_eq_true_2.
  - intros doc h' path key Hdoc Hsome. unfold openapi in Hdoc.
    destruct (for_each (app_url_rules self) _ _) as [st3|e] eqn:Hall;
      [|discriminate].
    cbn [mbind outcome_bind] in Hdoc. injection Hdoc as <- <-.
    cbn [doc_paths] in Hsome.
    destruct (openapi_rules_origin _ _ _ _ _ _ _ Hall Hsome) as [Hempty|Hr];
      [|exact Hr].
    cbn in Hempty. by destruct Hempty.
Qed.

(** The operation object of [details_rule], and the document's entry for
    it: only "get" is there. *)
Lemma openapi_attaches_methods_witness :
  ∃ po doc h',
    openapi test_libraries details_app schema_store = Ok (doc, h')
    ∧ operation_at (doc_paths doc) "/details" "get" = Some po
    ∧ written_keys details_rule = ["get"].
Proof.
  destruct (build_path_object details_view details_rule [] schema_store)
    as [[[po schemas'] h1]|e] eqn:Hbuild; [|vm_compute in Hbuild; discriminate].
  destruct (openapi_attaches_methods test_libraries details_app schema_store
              [] details_rule [] details_view (Assembly [] [] schema_store)
              po schemas' h1 eq_refl eq_refl eq_refl eq_refl Hbuild)
    as (paths' & Hstep & _ & _ & _ & Hdoc & _).
  exists po, (OpenApiDocument "3.0.3" "tests" "0.1.0" schemas' paths'), h1.
  assert (Hrun : openapi test_libraries details_app schema_store
                 = Ok (OpenApiDocument "3.0.3" "tests" "0.1.0" schemas' paths', h1)).
  { unfold openapi. change (app_url_rules details_app) with [details_rule].
    cbn [for_each]. rewrite Hstep. reflexivity. }
  split; [exact Hrun|]. split; [|reflexivity].
  apply (Hdoc _ _ "get" Hrun).
  - change (written_keys details_rule) with ["get"]. left.
  - intros r Hr. by apply elem_of_nil in Hr.
Defined.

(** ** Round trip *)

(** The classes model_load accepts are those of a recognized kind. *)
Lemma recognized_loads env c preference :
  loads_with_pydantic env c preference || loads_with_msgspec env c preference
  = recognized env c preference.
Proof.
  unfold loads_with_pydantic, loads_with_msgspec, recognized, backend_available.
  rewrite class_isinstance_list_dict_false.
  destruct (is_pydantic_dataclass env c), (issubclass c (BaseModel env)),
    (issubclass c (Struct env)), (is_attrs env c), (is_dataclass c),
    (PYDANTIC_INSTALLED env), (MSGSPEC_INSTALLED env),
    (preference_ne preference "msgspec"), (preference_ne preference "pydantic");
    reflexivity.
Qed.










(** The instance that model_dump returns unconverted: pydantic alone
    and the preference "msgspec". *)
Example round_trip_of_an_unconverted_instance :
  model_dump only_pydantic test_libraries (bob PyDCDetails)
    false false false (Some "msgspec") = Ok (bob PyDCDetails)
  ∧ (data ← model_dump only_pydantic test_libraries (bob PyDCDetails)
              false false false (Some "msgspec");
     model_load only_pydantic test_libraries data PyDCDetails
       TestValidationError false (Some "msgspec"))
    = Ok (bob PyDCDetails).
Proof. split; reflexivity. Qed.

Example test_model_dump_then_load :
  Forall (fun type_ =>
            (data ← model_dump both_installed test_libraries (bob type_)
                      false false false None;
             model_load both_installed test_libraries data type_
               TestValidationError false None)
            = Ok (bob type_))
    [ADetails; DCDetails; MDetails; PyDetails; PyDCDetails].
Proof. repeat constructor. Qed.

(** The class [list] is no target of model_load: line 178 asks whether
    the class object is an instance of list or dict, which no class is.
    A list is therefore dumped by model_dump but not loaded back. *)
Lemma model_load_list_target env L data exception_class decamelize preference :
  let error := Exn TypeError [ArgStr "Cannot load <class 'list'>"] None in
  model_load env L data list_ exception_class decamelize preference
  = Raise (Exn exception_class [ArgExn error] (Some error)).
Proof.
  apply (model_load_unrecognized env L data list_).
  - destruct env as [[] []]; reflexivity.
  - destruct env as [[] []]; reflexivity.
Qed.

(** [update] with a list: the empty list changes nothing, a list of
    pairs gives its items, and an element that is no pair is an error. *)
Example merge_definitions_of_a_list :
  merge_definitions (<[1%positive := SList []]> ∅) [("Item", SNone)]
    (SRef 1%positive) = Ok [("Item", SNone)]
  ∧ merge_definitions
      (<[1%positive := SList [SRef 2%positive]]>
         (<[2%positive := SList [SStr "Item"; SInt 1]]> ∅))
      [("Item", SNone)] (SRef 1%positive) = Ok [("Item", SInt 1)]
  ∧ merge_definitions (<[1%positive := SList [SInt 1]]> ∅) [] (SRef 1%positive)
    = raise_msg TypeError
        "cannot convert dictionary update sequence element #0 to a sequence".
Proof. repeat split; vm_compute; reflexivity. Qed.

Example openapi_details :
  ∃ h',
    openapi test_libraries details_app schema_store
    = Ok (OpenApiDocument "3.0.3" "tests" "0.1.0"
            [("Item", SRef 3%positive)]
            [("/details",
              [("get", PathObject [] [(200, SRef 4%positive)]
                         (Some "") (Some "Details.") None)])],
          h')
    ∧ h' !! 4%positive
      = Some (SDict [("title", SStr "Details"); ("type", SStr "object")])
    ∧ h' !! 1%positive = schema_store !! 1%positive.
Proof. eexists. split; [vm_compute; reflexivity|]. split; reflexivity. Qed.

(** C8, as first stated, does not hold of every route: last write wins
    between routes.  Two routes with schemas share the path "/details"
    and both accept GET; the loop stores the operation object of each
    in turn, so that the returned document holds under "/details" and
    "get" the one of the second route, processed later, and no longer
    the one built for the first. *)
Example openapi_earlier_route_replaced :
  ∃ doc h' po schemas' h1,
    openapi test_libraries details_app_twice schema_store = Ok (doc, h')
    ∧ app_url_rules details_app_twice = [details_rule; details_rule_again]
    ∧ dict_get (rule_endpoint details_rule)
        (app_view_functions details_app_twice) = Some details_view
    ∧ no_schemas details_view = false
    ∧ build_path_object details_view details_rule [] schema_store
      = Ok (po, schemas', h1)
    ∧ "GET" ∈ rule_methods details_rule
    ∧ skipped details_rule "GET" = false
    ∧ operation_at (doc_paths doc)
        (openapi_path test_libraries details_rule) (str_lower "GET")
      ≠ Some po
    ∧ po_summary <$> operation_at (doc_paths doc) "/details" "get"
      = Some (Some "Details, again.").
Proof.
  eexists _, _, _, _, _.
  split; [vm_compute; reflexivity|].
  split; [reflexivity|]. split; [reflexivity|]. split; [reflexivity|].
  split; [vm_compute; reflexivity|].
  split; [left|]. split; [reflexivity|].
  split; [vm_compute; discriminate | reflexivity].
Qed.

(** * Further properties *)

(** ** Classes that no dispatch accepts *)

Lemma no_kind_flags env c :
  no_kind env c = true →
  is_pydantic_dataclass env c = false
  ∧ issubclass c (BaseModel env) = false
  ∧ issubclass c (Struct env) = false
  ∧ is_attrs env c = false
  ∧ is_dataclass c = false.
Proof.
  unfold no_kind, is_pydantic_dataclass, is_attrs, is_dataclass. intros H.
  repeat (apply andb_prop in H; destruct H as [H ?]).
  repeat match goal with
         | Hn : negb _ = true |- _ => apply negb_true_iff in Hn
         end.
  repeat split; try assumption.
  - destruct (PYDANTIC_INSTALLED env); [assumption | reflexivity].
  - destruct (MSGSPEC_INSTALLED env); [assumption | reflexivity].
Qed.

(** X1.  A class of no kind is refused by the three entry points that
    take a target class, in every environment and under every
    preference: model_schema and convert_headers raise a TypeError of
    their own ("Cannot create schema for", "Cannot convert to", the
    latter before any header is looked at), whereas model_load hands the
    caller an instance of exception_class built from its TypeError. *)
Theorem unsupported_class_is_refused env (L : libraries) (S : schema_libraries)
    model_class :
  no_kind env model_class = true →
  (∀ preference,
     model_schema env S model_class preference
     = Raise (Exn TypeError
                [ArgStr ("Cannot create schema for " +:+ class_repr model_class)]
                None))
  ∧ (∀ raw exception_class,
       convert_headers env L raw model_class exception_class
       = Raise (Exn TypeError
                  [ArgStr ("Cannot convert to " +:+ class_repr model_class)]
                  None))
  ∧ (∀ data exception_class decamelize preference,
       let error :=
         Exn TypeError [ArgStr ("Cannot load " +:+ class_repr model_class)] None in
       model_load env L data model_class exception_class decamelize preference
       = Raise (Exn exception_class [ArgExn error] (Some error))).
Proof.
  intros (Hpdc & Hbm & Hst & Hat & Hdc)%no_kind_flags.
  split; [|split].
  - intros preference. unfold model_schema, schema_with_pydantic,
      schema_with_msgspec.
    rewrite Hpdc, Hbm, Hst, Hat, Hdc, class_isinstance_list_dict_false.
    reflexivity.
  - intros raw exception_class. unfold convert_headers, declared_fields.
    rewrite Hpdc, Hbm, Hst, Hat, Hdc. reflexivity.
  - intros data exception_class decamelize preference.
    apply model_load_unrecognized.
    + unfold loads_with_pydantic.
      rewrite Hpdc, Hbm, Hdc, class_isinstance_list_dict_false. reflexivity.
    + unfold loads_with_msgspec.
      rewrite Hst, Hat, Hdc, class_isinstance_list_dict_false. reflexivity.
Qed.

Lemma unsupported_class_is_refused_witness :
  model_schema both_installed test_schema_libraries str_ None
  = Raise (Exn TypeError [ArgStr "Cannot create schema for <class 'str'>"] None).
Proof.
  apply (proj1 (unsupported_class_is_refused both_installed test_libraries
                  test_schema_libraries str_ eq_refl) None).
Defined.

(** ** model_schema *)

(** X2.  With both libraries installed, model_schema consults for a
    class the library that model_load converts with: pydantic's
    json_schema under the pydantic reference template where model_load
    validates with pydantic, the first component of msgspec's
    schema_components under the msgspec template where model_load
    converts with msgspec, and a TypeError where model_load finds no
    kind. *)
Theorem model_schema_follows_model_load env S model_class preference :
  PYDANTIC_INSTALLED env = true →
  MSGSPEC_INSTALLED env = true →
  model_schema env S model_class preference
  = if loads_with_pydantic env model_class preference then
      TypeAdapter_json_schema S model_class "#/components/schemas/{model}"
    else if loads_with_msgspec env model_class preference then
      components ← msgspec_schema_components S [model_class]
                      "#/components/schemas/{name}";
      first_value components.2
    else
      raise_msg TypeError ("Cannot create schema for " +:+ class_repr model_class).
Proof.
  intros Hpi Hmi.
  unfold model_schema, schema_with_pydantic, schema_with_msgspec,
    loads_with_pydantic, loads_with_msgspec, json_schema, schema_components.
  rewrite Hpi, Hmi, class_isinstance_list_dict_false.
  destruct (is_pydantic_dataclass env model_class),
    (issubclass model_class (BaseModel env)),
    (issubclass model_class (Struct env)), (is_attrs env model_class),
    (is_dataclass model_class), (preference_ne preference "msgspec"),
    (preference_ne preference "pydantic");
    cbn; try reflexivity;
    destruct (msgspec_schema_components S _ _) as [[? ?]|]; reflexivity.
Qed.

Lemma model_schema_follows_model_load_witness :
  model_schema both_installed test_schema_libraries DCDetails (Some "msgspec")
  = Ok (test_schema DCDetails).
Proof.
  rewrite (model_schema_follows_model_load both_installed test_schema_libraries
             DCDetails (Some "msgspec") eq_refl eq_refl).
  reflexivity.
Defined.

(** X3.  Without pydantic, model_schema cannot describe a dataclass
    unless the preference is "msgspec": the dataclass test of line 205
    does not ask whether pydantic is installed, so the stand-in
    TypeAdapter is called and its TypeError leaves model_schema.
    model_load, which does ask (line 179), converts the same class with
    msgspec under no preference. *)
Theorem model_schema_dataclass_without_pydantic env (L : libraries) S
    model_class preference :
  PYDANTIC_INSTALLED env = false →
  MSGSPEC_INSTALLED env = true →
  is_dataclass model_class = true →
  issubclass model_class (BaseModel env) = false →
  preference ≠ Some "msgspec" →
  model_schema env S model_class preference
  = Raise (Exn TypeError [ArgStr "TypeAdapter() takes no arguments"] None)
  ∧ ∀ data exception_class,
      model_load env L data model_class exception_class false None
      = try_except (msgspec_convert L data model_class) (load_errors env)
          (fun error => raise_from_handler exception_class error).
Proof.
  intros Hpi Hmi Hdc Hbm Hpref. split.
  - unfold model_schema, schema_with_pydantic, json_schema.
    rewrite Hdc, Hpi. unfold preference_ne.
    rewrite bool_decide_eq_false_2 by done.
    cbn [negb andb]. rewrite orb_true_r. reflexivity.
  - intros data exception_class.
    unfold model_load, loads_with_pydantic, loads_with_msgspec, convert,
      is_pydantic_dataclass.
    rewrite Hpi, Hmi, Hdc, Hbm, class_isinstance_list_dict_false.
    cbn [andb orb]. rewrite orb_true_r. reflexivity.
Qed.

Lemma model_schema_dataclass_without_pydantic_witness :
  model_schema only_msgspec test_schema_libraries DCDetails None
  = Raise (Exn TypeError [ArgStr "TypeAdapter() takes no arguments"] None).
Proof.
  refine (proj1 (model_schema_dataclass_without_pydantic only_msgspec
                   test_libraries test_schema_libraries DCDetails None
                   eq_refl eq_refl eq_refl eq_refl _)).
  discriminate.
Defined.

(** X4.  Without msgspec, a dataclass under the preference "msgspec"
    makes model_schema raise NameError: the msgspec branch is taken
    (line 212 does not ask whether msgspec is installed) and
    schema_components was never imported. *)
Theorem model_schema_dataclass_without_msgspec env S model_class :
  MSGSPEC_INSTALLED env = false →
  is_dataclass model_class = true →
  is_pydantic_dataclass env model_class = false →
  issubclass model_class (BaseModel env) = false →
  model_schema env S model_class (Some "msgspec")
  = Raise (Exn NameError [ArgStr "name 'schema_components' is not defined"] None).
Proof.
  intros Hmi Hdc Hpdc Hbm.
  unfold model_schema, schema_with_pydantic, schema_with_msgspec,
    schema_components.
  rewrite Hmi, Hdc, Hpdc, Hbm, class_isinstance_list_dict_false.
  cbn. rewrite orb_true_r. reflexivity.
Qed.

Lemma model_schema_dataclass_without_msgspec_witness :
  model_schema only_pydantic test_schema_libraries DCDetails (Some "msgspec")
  = Raise (Exn NameError [ArgStr "name 'schema_components' is not defined"] None).
Proof.
  apply (model_schema_dataclass_without_msgspec only_pydantic
           test_schema_libraries DCDetails eq_refl eq_refl eq_refl eq_refl).
Defined.

(** ** model_load and model_dump: what the dispatch lets through *)

(** X5.  model_load adds nothing to a conversion that succeeds and hides
    nothing else: for an accepted target class, the model the library
    returns is returned, and an exception of the library that is none of
    TypeError, ValueError and the two ValidationErrors leaves model_load
    as it is, not wrapped in exception_class. *)
Theorem model_load_is_transparent env L data model_class exception_class
    (decamelize : bool) preference r :
  let data' := if decamelize then humps_decamelize L data else data in
  (loads_with_pydantic env model_class preference = true
   ∧ validate_python env L model_class data' = r)
  ∨ (loads_with_pydantic env model_class preference = false
     ∧ loads_with_msgspec env model_class preference = true
     ∧ convert env L data' model_class = r) →
  match r with
  | Ok _ => True
  | Raise e => existsb (exn_isinstance e) (load_errors env) = false
  end →
  model_load env L data model_class exception_class decamelize preference = r.
Proof.
  intros data' Hr Hpass. unfold model_load. fold data'.
  destruct Hr as [[Hp <-] | (Hp & Hm & <-)].
  - rewrite Hp. unfold try_except.
    destruct (validate_python env L model_class data'); [done|].
    by rewrite Hpass.
  - rewrite Hp, Hm. unfold try_except.
    destruct (convert env L data' model_class); [done|].
    by rewrite Hpass.
Qed.

Lemma model_load_is_transparent_witness :
  model_load both_installed test_libraries
    (VDict [("nameGiven", VStr "bob")]) (dataclass_class "Person" ["name_given"])
    TestValidationError true None
  = Ok (VObj (dataclass_class "Person" ["name_given"])
          [("name_given", VStr "bob")]).
Proof.
  apply (model_load_is_transparent both_installed test_libraries
           (VDict [("nameGiven", VStr "bob")])
           (dataclass_class "Person" ["name_given"])
           TestValidationError true None).
  - left. split; reflexivity.
  - exact I.
Defined.

(** X6.  The classes [list] and [dict] are never targets of model_load:
    in every environment and under every preference the call raises
    exception_class, built from the TypeError "Cannot load".  model_dump
    nevertheless serializes a list or dict value whenever a library is
    installed that the preference does not exclude, so what it produces
    for a bare list cannot be loaded back at the type of that list. *)
Theorem list_and_dict_are_dumped_not_loaded env L :
  (∀ data exception_class decamelize preference,
     let error := Exn TypeError [ArgStr "Cannot load <class 'list'>"] None in
     model_load env L data list_ exception_class decamelize preference
     = Raise (Exn exception_class [ArgExn error] (Some error)))
  ∧ (∀ data exception_class decamelize preference,
       let error := Exn TypeError [ArgStr "Cannot load <class 'dict'>"] None in
       model_load env L data dict_ exception_class decamelize preference
       = Raise (Exn exception_class [ArgExn error] (Some error)))
  ∧ (∀ raw preference,
       isinstance_list_dict raw = true →
       opaque env raw preference
       = negb ((PYDANTIC_INSTALLED env && preference_ne preference "msgspec")
               || (MSGSPEC_INSTALLED env && preference_ne preference "pydantic"))).
Proof.
  split; [|split].
  - intros. apply (model_load_unrecognized env L data list_);
      destruct env as [[] []]; reflexivity.
  - intros. apply (model_load_unrecognized env L data dict_);
      destruct env as [[] []]; reflexivity.
  - intros raw preference Hld.
    unfold opaque, instance_is_pydantic_dataclass. rewrite Hld.
    destruct raw; try discriminate Hld;
      destruct env as [[] []];
      destruct (preference_ne preference "msgspec"),
        (preference_ne preference "pydantic"); reflexivity.
Qed.

Lemma list_and_dict_are_dumped_not_loaded_witness :
  opaque both_installed (VList [VInt 1]) None = false
  ∧ model_dump both_installed test_libraries (VList [VInt 1])
      false false false None = Ok (VList [VInt 1]).
Proof.
  split; [|reflexivity].
  rewrite (proj2 (proj2 (list_and_dict_are_dumped_not_loaded both_installed
                           test_libraries)) (VList [VInt 1]) None eq_refl).
  reflexivity.
Defined.

(** X7.  Where model_dump and model_load draw the line.  A value that
    is neither a list nor a dict is passed through by model_dump exactly
    when its class is no BaseModel subclass, no Struct subclass, no
    attrs class and no dataclass with an available backend; model_load
    accepts exactly the classes that model_dump serializes and, besides,
    every pydantic dataclass.  So the two agree on every class that is
    no pydantic dataclass, and on pydantic dataclasses while a backend
    is available; the instance of a pydantic dataclass with no backend
    available under the preference is returned unconverted by
    model_dump although model_load accepts its class. *)
Theorem opaque_versus_loadable env v preference :
  isinstance_list_dict v = false →
  opaque env v preference
  = negb (issubclass (type_of v) (BaseModel env)
          || issubclass (type_of v) (Struct env)
          || is_attrs env (type_of v)
          || (is_dataclass (type_of v) && backend_available env preference))
  ∧ loads_with_pydantic env (type_of v) preference
    || loads_with_msgspec env (type_of v) preference
    = is_pydantic_dataclass env (type_of v)
      || (issubclass (type_of v) (BaseModel env)
          || issubclass (type_of v) (Struct env)
          || is_attrs env (type_of v)
          || (is_dataclass (type_of v) && backend_available env preference))
  ∧ (is_pydantic_dataclass env (type_of v) = false
     ∨ is_dataclass (type_of v) && backend_available env preference = true →
     opaque env v preference
     = negb (loads_with_pydantic env (type_of v) preference
             || loads_with_msgspec env (type_of v) preference)).
Proof.
  intros Hld.
  rewrite recognized_loads, (opaque_serialized _ _ _ Hld).
  unfold recognized, serialized.
  split; [reflexivity|]. split.
  - destruct (is_pydantic_dataclass env (type_of v)),
      (issubclass (type_of v) (BaseModel env)),
      (issubclass (type_of v) (Struct env)), (is_attrs env (type_of v)),
      (is_dataclass (type_of v) && backend_available env preference);
      reflexivity.
  - intros [Hpdc|Hback].
    + by rewrite Hpdc.
    + rewrite Hback, !orb_true_r. reflexivity.
Qed.

(** pydantic alone and the preference "msgspec": the instance of a
    pydantic dataclass is passed through, and its class is loaded. *)
Lemma opaque_versus_loadable_witness :
  opaque only_pydantic (bob PyDCDetails) (Some "msgspec") = true
  ∧ loads_with_pydantic only_pydantic PyDCDetails (Some "msgspec")
    || loads_with_msgspec only_pydantic PyDCDetails (Some "msgspec") = true.
Proof.
  destruct (opaque_versus_loadable only_pydantic (bob PyDCDetails)
              (Some "msgspec") eq_refl) as (Hop & Hload & _).
  split; [rewrite Hop; reflexivity | refine (eq_trans Hload _); reflexivity].
Defined.

Lemma model_dump_casing env L raw by_alias (camelize kebabize : bool) preference :
  model_dump env L raw by_alias camelize kebabize preference
  = (value ← model_dump env L raw by_alias false false preference;
     Ok (if opaque env raw preference then value
         else if camelize then humps_camelize L value
         else if kebabize then humps_kebabize L value
         else value)).
Proof.
  unfold model_dump, opaque, apply_casing, instance_is_pydantic_dataclass.
  cbn [negb andb]. cbv iota.
  destruct (isinstance raw (BaseModel env));
    [cbn [negb andb]; dump_branch|].
  destruct (isinstance raw (Struct env) || is_attrs env (type_of raw));
    [cbn [negb andb]; dump_branch|].
  destruct ((isinstance_list_dict raw || is_dataclass (type_of raw))
            && PYDANTIC_INSTALLED env && preference_ne preference "msgspec");
    [cbn [negb andb]; dump_branch|].
  destruct ((isinstance_list_dict raw || is_dataclass (type_of raw))
            && MSGSPEC_INSTALLED env && preference_ne preference "pydantic");
    [cbn [negb andb]; dump_branch|].
  reflexivity.
Qed.

(** X8.  Casing is a last step on top of the plain serialization and
    never decides whether model_dump raises: with any casing flags the
    result is the result without them, transformed by humps.camelize if
    camelize is set, else by humps.kebabize if kebabize is set, and not
    at all for a value passed through.  When both flags are set,
    camelize wins and kebabize has no effect. *)
Theorem model_dump_casing_is_last env L raw by_alias (camelize kebabize : bool)
    preference :
  model_dump env L raw by_alias camelize kebabize preference
  = (value ← model_dump env L raw by_alias false false preference;
     Ok (if opaque env raw preference then value
         else if camelize then humps_camelize L value
         else if kebabize then humps_kebabize L value
         else value))
  ∧ model_dump env L raw by_alias true kebabize preference
    = model_dump env L raw by_alias true false preference.
Proof. split; [apply model_dump_casing | reflexivity]. Qed.

(** X9.  by_alias reaches pydantic's model_dump of a BaseModel instance
    and nothing else: for a value that is not a BaseModel instance,
    model_dump gives the same result with by_alias set and unset. *)
Theorem model_dump_by_alias_only_for_BaseModel env L raw camelize kebabize
    preference :
  isinstance raw (BaseModel env) = false →
  model_dump env L raw true camelize kebabize preference
  = model_dump env L raw false camelize kebabize preference.
Proof.
  intros H. unfold model_dump. rewrite H. reflexivity.
Qed.

Lemma model_dump_by_alias_only_for_BaseModel_witness :
  model_dump both_installed test_libraries (bob MDetails) true false false None
  = model_dump both_installed test_libraries (bob MDetails) false false false None.
Proof.
  apply (model_dump_by_alias_only_for_BaseModel both_installed test_libraries
           (bob MDetails) false false None).
  reflexivity.
Defined.

Lemma bind_Ok_self {A} (r : outcome A) : (value ← r; Ok value) = r.
Proof. by destruct r. Qed.

(** X10.  The preference only arbitrates for lists, dicts and
    dataclasses.  model_dump gives the same result under any two
    preferences for an instance of a BaseModel subclass, of a Struct
    subclass or of an attrs class; model_load does for a pydantic
    dataclass, a BaseModel subclass, and a Struct subclass or attrs
    class that is not also a dataclass.  The instance of a pydantic
    dataclass is not among the former: with both libraries installed
    model_dump serializes it, like that of a plain dataclass, with
    pydantic's TypeAdapter under the preference "pydantic" and with
    msgspec's to_builtins under the preference "msgspec". *)
Theorem preference_is_ignored_for_unambiguous_kinds env L v data
    exception_class by_alias camelize kebabize decamelize p1 p2 :
  (isinstance v (BaseModel env) || isinstance v (Struct env)
   || is_attrs env (type_of v) = true →
   model_dump env L v by_alias camelize kebabize p1
   = model_dump env L v by_alias camelize kebabize p2)
  ∧ (is_pydantic_dataclass env (type_of v)
     || issubclass (type_of v) (BaseModel env)
     || ((issubclass (type_of v) (Struct env) || is_attrs env (type_of v))
         && negb (is_dataclass (type_of v))) = true →
     model_load env L data (type_of v) exception_class decamelize p1
     = model_load env L data (type_of v) exception_class decamelize p2)
  ∧ (PYDANTIC_INSTALLED env = true → MSGSPEC_INSTALLED env = true →
     is_dataclass (type_of v) = true →
     isinstance v (BaseModel env) || isinstance v (Struct env)
     || is_attrs env (type_of v) = false →
     model_dump env L v by_alias false false (Some "pydantic")
     = dump_python env L (type_of v) v
     ∧ model_dump env L v by_alias false false (Some "msgspec")
       = to_builtins env L v).
Proof.
  split; [|split].
  - intros H. unfold model_dump, instance_is_pydantic_dataclass. cbv iota.
    destruct (isinstance v (BaseModel env)); [done|].
    cbn [orb] in H. by rewrite H.
  - intros H.
    unfold model_load, loads_with_pydantic, loads_with_msgspec.
    rewrite class_isinstance_list_dict_false.
    destruct (is_pydantic_dataclass env (type_of v)); [done|].
    destruct (issubclass (type_of v) (BaseModel env)); [done|].
    cbn [orb] in *. apply andb_true_iff in H as [Hkind Hdc].
    apply negb_true_iff in Hdc. rewrite Hkind, Hdc. done.
  - intros Hpi Hmi Hdc Hkind.
    unfold model_dump, instance_is_pydantic_dataclass, apply_casing. cbv iota.
    rewrite <- orb_assoc in Hkind.
    apply orb_false_iff in Hkind as [Hbm Hms].
    rewrite Hbm, Hms, Hdc, Hpi, Hmi, orb_true_r.
    split; cbn; apply bind_Ok_self.
Qed.

Lemma preference_is_ignored_for_unambiguous_kinds_witness :
  model_dump both_installed test_libraries (bob ADetails) false false false
    (Some "pydantic")
  = model_dump both_installed test_libraries (bob ADetails) false false false
      (Some "msgspec").
Proof.
  refine (proj1 (preference_is_ignored_for_unambiguous_kinds both_installed
                   test_libraries (bob ADetails) VNone TestValidationError
                   false false false false (Some "pydantic") (Some "msgspec")) _).
  reflexivity.
Defined.

(** X11.  A preference that names a library which is not installed
    switches a plain dataclass off, although the other library is there:
    with only msgspec installed and the preference "pydantic" (or only
    pydantic and the preference "msgspec"), model_dump returns the
    instance itself, unserialized and without casing, and model_load
    raises exception_class for its class. *)
Theorem preference_for_a_missing_library env L v preference :
  is_dataclass (type_of v) = true →
  issubclass (type_of v) (BaseModel env) = false →
  issubclass (type_of v) (Struct env) = false →
  is_attrs env (type_of v) = false →
  (PYDANTIC_INSTALLED env = false ∧ preference = Some "pydantic")
  ∨ (MSGSPEC_INSTALLED env = false
     ∧ is_pydantic_dataclass env (type_of v) = false
     ∧ preference = Some "msgspec") →
  (∀ by_alias camelize kebabize,
     model_dump env L v by_alias camelize kebabize preference = Ok v)
  ∧ (∀ data exception_class decamelize,
       let error :=
         Exn TypeError [ArgStr ("Cannot load " +:+ class_repr (type_of v))]
           None in
       model_load env L data (type_of v) exception_class decamelize preference
       = Raise (Exn exception_class [ArgExn error] (Some error))).
Proof.
  intros Hdc Hbm Hst Hat Hmissing.
  assert (Hpdc : is_pydantic_dataclass env (type_of v) = false).
  { destruct Hmissing as [[Hpi _]|(_ & H & _)]; [|exact H].
    unfold is_pydantic_dataclass. by rewrite Hpi. }
  assert (Hoff : PYDANTIC_INSTALLED env && preference_ne preference "msgspec"
                 = false
                 ∧ MSGSPEC_INSTALLED env && preference_ne preference "pydantic"
                   = false).
  { destruct Hmissing as [[Hpi ->]|(Hmi & _ & ->)].
    - rewrite Hpi. split; [reflexivity|]. apply andb_false_r.
    - rewrite Hmi. split; [apply andb_false_r | reflexivity]. }
  destruct Hoff as [Hp Hm]. split.
  - intros by_alias camelize kebabize. apply model_dump_falls_through.
    unfold opaque, instance_is_pydantic_dataclass, isinstance.
    rewrite Hbm, Hst, Hat.
    rewrite <- !andb_assoc, Hp, Hm, !andb_false_r. reflexivity.
  - intros data exception_class decamelize. apply model_load_unrecognized.
    + unfold loads_with_pydantic.
      by rewrite Hpdc, Hbm, <- andb_assoc, Hp, andb_false_r.
    + unfold loads_with_msgspec.
      by rewrite Hst, Hat, <- andb_assoc, Hm, andb_false_r.
Qed.

Lemma preference_for_a_missing_library_witness :
  model_dump only_msgspec test_libraries (bob DCDetails) false true false
    (Some "pydantic")
  = Ok (bob DCDetails).
Proof.
  refine (proj1 (preference_for_a_missing_library only_msgspec test_libraries
                   (bob DCDetails) (Some "pydantic")
                   eq_refl eq_refl eq_refl eq_refl _) false true false).
  left. split; reflexivity.
Defined.




(** ** convert_headers: construction failures *)

(** X13.  Once the target class is accepted and the headers collected,
    convert_headers returns the model the constructor builds; a
    TypeError, a ValueError or a msgspec ValidationError of the
    constructor reaches the caller as an instance of exception_class
    built from it, and any other exception as it is.  pydantic's
    ValidationError is not named in the except clause of line 247, yet
    with pydantic installed it is caught all the same, being a
    ValueError. *)
Theorem convert_headers_wraps_construction_errors env L raw model_class
    exception_class fields_ result :
  declared_fields env model_class = Ok fields_ →
  collect_headers raw fields_ = Ok result →
  convert_headers env L raw model_class exception_class
  = match instantiate L model_class result with
    | Ok model => Ok model
    | Raise e =>
        if existsb (exn_isinstance e)
             [TypeError; MsgSpecValidationError env; ValueError]
        then Raise (Exn exception_class [ArgExn e] (Some e))
        else Raise e
    end
  ∧ (PYDANTIC_INSTALLED env = true →
     ∀ args context,
       existsb (exn_isinstance (Exn (PydanticValidationError env) args context))
         [TypeError; MsgSpecValidationError env; ValueError] = true).
Proof.
  intros Hfields Hrun. split.
  - unfold convert_headers. rewrite Hfields. cbn [mbind outcome_bind].
    rewrite Hrun. reflexivity.
  - intros Hpi args context. unfold PydanticValidationError.
    rewrite Hpi. destruct (MSGSPEC_INSTALLED env) eqn:Hmi;
      unfold MsgSpecValidationError; rewrite Hmi; reflexivity.
Qed.

(** Headers without the one the class requires: nothing is collected,
    the constructor is called without arguments and its TypeError comes
    back as the caller's exception. *)
Lemma convert_headers_wraps_construction_errors_witness :
  let e := Exn TypeError [ArgStr "__init__() got unexpected arguments"] None in
  convert_headers both_installed test_libraries
    (HeadersDict [("Other", VStr "2")]) DCHeaders TestValidationError
  = Raise (Exn TestValidationError [ArgExn e] (Some e)).
Proof.
  intros e.
  rewrite (proj1 (convert_headers_wraps_construction_errors both_installed
                    test_libraries (HeadersDict [("Other", VStr "2")]) DCHeaders
                    TestValidationError (list_to_set ["x_info"])
                    [] eq_refl eq_refl)).
  reflexivity.
Defined.

(** ** convert_response_return_value: the other return values *)

(** X14.  An HTTPException is returned as it is, without a call of
    model_dump.  A tuple that has neither two nor three elements makes
    convert_response_return_value raise UnboundLocalError, the local
    [value] never having been assigned.  In a pair, None in second place
    is no status: it goes through model_dump as headers and comes back
    as None. *)
Theorem convert_response_other_return_values env L cfg :
  (∀ result,
     isinstance result HTTPException = true →
     convert_response_return_value env L cfg result = Ok result)
  ∧ (∀ items,
       length items ≠ 2%nat → length items ≠ 3%nat →
       ∃ message,
         convert_response_return_value env L cfg (VTuple items)
         = Raise (Exn UnboundLocalError [ArgStr message] None))
  ∧ (∀ body,
       convert_response_return_value env L cfg (VTuple [body; VNone])
       = (value ← dump_body env L cfg body; Ok (VTuple [value; VNone]))).
Proof.
  split; [|split].
  - intros result H. by apply convert_response_exception.
  - intros items H2 H3. eexists. by apply convert_response_other_length.
  - intros body. rewrite convert_response_headers by reflexivity.
    rewrite dump_headers_None. reflexivity.
Qed.

Lemma convert_response_other_return_values_witness :
  ∃ message,
    convert_response_return_value both_installed test_libraries
      (Config false false None) (VTuple [bob DCDetails])
    = Raise (Exn UnboundLocalError [ArgStr message] None).
Proof.
  apply (proj1 (proj2 (convert_response_other_return_values both_installed
                         test_libraries (Config false false None)))
           [bob DCDetails]); discriminate.
Defined.

(** ** _split_definitions: the store it leaves *)

(** The run on a dict, with the two new addresses named. *)
Lemma split_definitions_ok (h : store) (s : loc) (items : list (string * sval)) :
  h !! s = Some (SDict items) →
  ∃ l1 l2 h',
    _split_definitions (SRef s) h
    = Ok ((default (SRef l2) (dict_get "definitions" items), SRef l1), h')
    ∧ h !! l1 = None ∧ h !! l2 = None ∧ l1 ≠ l2
    ∧ h' !! l1 = Some (SDict (dict_delete "definitions" items))
    ∧ h' !! l2 = Some (SDict [])
    ∧ ∀ l, l ≠ l1 → l ≠ l2 → h' !! l = h !! l.
Proof.
  intros Hs. unfold _split_definitions, dict_copy, dict_pop.
  rewrite Hs. cbn [mbind outcome_bind alloc].
  set (l1 := fresh (dom h)).
  set (h1 := <[l1 := SDict items]> h).
  set (l2 := fresh (dom h1)).
  set (h2 := <[l2 := SDict []]> h1).
  assert (Hl1 : h !! l1 = None) by apply not_elem_of_dom, is_fresh.
  assert (Hl2 : h1 !! l2 = None) by apply not_elem_of_dom, is_fresh.
  assert (Hne : l1 ≠ l2).
  { intros Heq. unfold h1 in Hl2. rewrite <- Heq in Hl2.
    by rewrite lookup_insert_eq in Hl2. }
  assert (Hl2h : h !! l2 = None).
  { unfold h1 in Hl2. by rewrite lookup_insert_ne in Hl2. }
  assert (Hh2l1 : h2 !! l1 = Some (SDict items)).
  { unfold h2, h1. rewrite lookup_insert_ne by done. apply lookup_insert_eq. }
  rewrite Hh2l1. exists l1, l2.
  destruct (dict_get "definitions" items) as [v|] eqn:Hdef;
    cbn [mbind outcome_bind default].
  - eexists. split; [reflexivity|].
    split; [done|]. split; [done|]. split; [done|].
    split; [apply lookup_insert_eq|].
    split; [rewrite lookup_insert_ne by done; apply lookup_insert_eq|].
    intros l Hn1 Hn2. unfold h2, h1. by rewrite !lookup_insert_ne.
  - exists h2. split; [reflexivity|].
    split; [done|]. split; [done|]. split; [done|].
    split; [by rewrite dict_delete_absent|].
    split; [apply lookup_insert_eq|].
    intros l Hn1 Hn2. unfold h2, h1. by rewrite !lookup_insert_ne.
Qed.

Lemma split_definitions_list (h : store) (s : loc) (xs : list sval) :
  h !! s = Some (SList xs) →
  _split_definitions (SRef s) h
  = Raise (Exn TypeError [ArgStr "pop expected at most 1 argument, got 2"] None).
Proof.
  intros Hs. unfold _split_definitions, dict_copy, dict_pop.
  rewrite Hs. cbn [mbind outcome_bind alloc].
  set (l1 := fresh (dom h)).
  set (h1 := <[l1 := SList xs]> h).
  set (l2 := fresh (dom h1)).
  assert (Hl2 : h1 !! l2 = None) by apply not_elem_of_dom, is_fresh.
  assert (Hne : l2 ≠ l1).
  { intros ->. unfold h1 in Hl2. by rewrite lookup_insert_eq in Hl2. }
  rewrite lookup_insert_ne by done. unfold h1. rewrite lookup_insert_eq.
  reflexivity.
Qed.

(** X15.  _split_definitions succeeds exactly on a schema that is a
    dict.  A list is copied but its pop takes no default, so a TypeError
    comes out; None, a bool, a number and a string have no copy method
    and give an AttributeError. *)
Theorem split_definitions_needs_a_dict (h : store) (schema : sval) :
  ((∃ result, _split_definitions schema h = Ok result)
   ↔ ∃ l items, schema = SRef l ∧ h !! l = Some (SDict items))
  ∧ (∀ l xs, schema = SRef l → h !! l = Some (SList xs) →
       ∃ message,
         _split_definitions schema h = Raise (Exn TypeError [ArgStr message] None))
  ∧ ((∀ l, schema ≠ SRef l) →
     ∃ message,
       _split_definitions schema h
       = Raise (Exn AttributeError [ArgStr message] None)).
Proof.
  split; [split|split].
  - intros [result Hrun]. destruct schema as [| | | |l]; try discriminate Hrun.
    destruct (h !! l) as [[items|xs]|] eqn:Hl.
    + by exists l, items.
    + rewrite (split_definitions_list h l xs Hl) in Hrun. discriminate.
    + unfold _split_definitions, dict_copy in Hrun. rewrite Hl in Hrun.
      discriminate.
  - intros (l & items & -> & Hl).
    destruct (split_definitions_ok h l items Hl) as (l1 & l2 & h' & Hrun & _).
    eauto.
  - intros l xs -> Hl. eexists. apply (split_definitions_list h l xs Hl).
  - intros Hatom. destruct schema; try (eexists; reflexivity).
    exfalso. by eapply Hatom.
Qed.

Lemma split_definitions_needs_a_dict_witness :
  ∃ message,
    _split_definitions (SStr "Details") schema_store
    = Raise (Exn AttributeError [ArgStr message] None).
Proof.
  apply (proj2 (proj2 (split_definitions_needs_a_dict schema_store
                         (SStr "Details")))).
  intros l. discriminate.
Defined.

(** X16.  Splitting what a split returned finds nothing more: the second
    call gives a new empty dict for the definitions and one more copy
    with the same items, and leaves the first copy as it was. *)
Theorem split_definitions_twice (h : store) (s : loc)
    (items : list (string * sval)) :
  h !! s = Some (SDict items) →
  ∃ definitions new_schema h1 empty new_schema' h2,
    _split_definitions (SRef s) h = Ok ((definitions, SRef new_schema), h1)
    ∧ _split_definitions (SRef new_schema) h1
      = Ok ((SRef empty, SRef new_schema'), h2)
    ∧ h1 !! empty = None
    ∧ h2 !! empty = Some (SDict [])
    ∧ new_schema' ≠ new_schema
    ∧ h2 !! new_schema' = Some (SDict (dict_delete "definitions" items))
    ∧ h2 !! new_schema = Some (SDict (dict_delete "definitions" items)).
Proof.
  intros Hs.
  destruct (split_definitions_ok h s items Hs)
    as (l1 & l2 & h1 & Hrun1 & Hl1 & Hl2 & Hne & Hh1l1 & Hh1l2 & Hrest).
  destruct (split_definitions_ok h1 l1 _ Hh1l1)
    as (l3 & l4 & h2 & Hrun2 & Hl3 & Hl4 & Hne' & Hh2l3 & Hh2l4 & Hrest').
  rewrite dict_get_delete_eq in Hrun2. cbn [default] in Hrun2.
  assert (Hdel : dict_delete "definitions" (dict_delete "definitions" items)
                 = dict_delete "definitions" items).
  { apply dict_delete_absent, dict_get_delete_eq. }
  rewrite Hdel in Hh2l3.
  exists (default (SRef l2) (dict_get "definitions" items)), l1, h1, l4, l3, h2.
  split; [exact Hrun1|]. split; [exact Hrun2|].
  split; [exact Hl4|]. split; [exact Hh2l4|].
  assert (l3 ≠ l1) by (intros ->; congruence).
  assert (l4 ≠ l1) by (intros ->; congruence).
  split; [done|]. split; [exact Hh2l3|].
  rewrite Hrest' by done. exact Hh1l1.
Qed.

Lemma split_definitions_twice_witness :
  schema_store !! 1%positive = Some (SDict details_schema)
  ∧ ∃ new_schema h1 empty new_schema' h2,
      _split_definitions (SRef 1%positive) schema_store
      = Ok ((SRef 2%positive, SRef new_schema), h1)
      ∧ _split_definitions (SRef new_schema) h1
        = Ok ((SRef empty, SRef new_schema'), h2)
      ∧ h2 !! empty = Some (SDict []).
Proof.
  split; [reflexivity|].
  destruct (split_definitions_twice schema_store 1%positive details_schema
              eq_refl)
    as (d & n & h1 & e & n' & h2 & Hrun1 & Hrun2 & _ & He & _).
  exists n, h1, e, n', h2. split; [|split; [exact Hrun2 | exact He]].
  assert (Hd : d = SRef 2%positive).
  { pose proof Hrun1 as H. vm_compute in H. congruence. }
  rewrite <- Hd. exact Hrun1.
Defined.

(** ** openapi: what it leaves of the store *)

Lemma bind_Ok {A B} (r : outcome A) (k : A → outcome B) (b : B) :
  r ≫= k = Ok b → ∃ a, r = Ok a ∧ k a = Ok b.
Proof. destruct r as [a|e]; [eauto | discriminate]. Qed.

Lemma split_definitions_frame schema (h : store) result h' :
  _split_definitions schema h = Ok (result, h') → h ⊆ h'.
Proof.
  intros Hrun. destruct schema as [| | | |l]; try discriminate Hrun.
  destruct (h !! l) as [[items|xs]|] eqn:Hl.
  - destruct (split_definitions_ok h l items Hl)
      as (l1 & l2 & h'' & Hrun' & Hl1 & Hl2 & _ & _ & _ & Hrest).
    rewrite Hrun' in Hrun. injection Hrun as _ <-.
    apply map_subseteq_spec. intros i x Hi.
    rewrite Hrest; [done | congruence | congruence].
  - rewrite (split_definitions_list h l xs Hl) in Hrun. discriminate.
  - unfold _split_definitions, dict_copy in Hrun. rewrite Hl in Hrun.
    discriminate.
Qed.

Lemma add_response_frame acc item acc' :
  add_response acc item = Ok acc' → acc.2 ⊆ acc'.2.
Proof.
  destruct acc as [[po sc] h], item as [code schema]. cbn [add_response snd].
  intros ([[d n] h1] & Hsplit & Hrest)%bind_Ok.
  apply bind_Ok in Hrest as (sc1 & _ & Hret). injection Hret as <-.
  cbn [snd]. by eapply split_definitions_frame.
Qed.

Lemma add_request_frame func acc acc' :
  add_request func acc = Ok acc' → acc.2 ⊆ acc'.2.
Proof.
  destruct acc as [[po sc] h]. cbn [add_request snd].
  destruct (func_request_schema func) as [schema|];
    [|intros [= <-]; done].
  intros ([[d n] h1] & Hsplit & Hrest)%bind_Ok.
  apply bind_Ok in Hrest as (sc1 & _ & Hret). injection Hret as <-.
  cbn [snd]. by eapply split_definitions_frame.
Qed.

Lemma add_querystring_frame func acc acc' :
  add_querystring func acc = Ok acc' → acc.2 ⊆ acc'.2.
Proof.
  destruct acc as [[po sc] h]. cbn [add_querystring snd].
  destruct (func_querystring_schema func) as [schema|];
    [|intros [= <-]; done].
  intros ([[d n] h1] & Hsplit & Hrest)%bind_Ok.
  apply bind_Ok in Hrest as (sc1 & _ & Hrest).
  apply bind_Ok in Hrest as (its & _ & Hrest).
  apply bind_Ok in Hrest as (props & _ & Hrest).
  apply bind_Ok in Hrest as (props' & _ & Hret). injection Hret as <-.
  cbn [snd]. by eapply split_definitions_frame.
Qed.

Lemma add_responses_frame items acc acc' :
  for_each items add_response acc = Ok acc' → acc.2 ⊆ acc'.2.
Proof.
  revert acc. induction items as [|item items IH]; intros acc.
  - intros [= <-]. done.
  - cbn [for_each]. intros (acc1 & Hstep & Hrest)%bind_Ok.
    etransitivity; [by eapply add_response_frame | by apply IH].
Qed.

Lemma build_path_object_frame func rule sc (h : store) po sc' h' :
  build_path_object func rule sc h = Ok (po, sc', h') → h ⊆ h'.
Proof.
  unfold build_path_object.
  intros (po0 & _ & Hrest)%bind_Ok.
  apply bind_Ok in Hrest as (acc1 & H1%add_responses_frame & Hrest).
  apply bind_Ok in Hrest as (acc2 & H2%add_request_frame & Hrest).
  apply bind_Ok in Hrest as ([[po3 sc3] h3] & H3%add_querystring_frame & Hret).
  injection Hret as _ _ <-. cbn [snd] in *.
  etransitivity; [exact H1|]. etransitivity; [exact H2 | exact H3].
Qed.

Lemma openapi_rule_frame L view_functions st rule st' :
  openapi_rule L view_functions st rule = Ok st' → heap st ⊆ heap st'.
Proof.
  unfold openapi_rule. intros (func & _ & Hrest)%bind_Ok.
  destruct (no_schemas func); [by injection Hrest as <-|].
  apply bind_Ok in Hrest as ([[po sc] h1] & Hbuild & Hrest).
  apply bind_Ok in Hrest as (paths' & _ & Hret). injection Hret as <-.
  cbn [heap]. by eapply build_path_object_frame.
Qed.

Lemma openapi_rules_frame L view_functions rules st st' :
  for_each rules (openapi_rule L view_functions) st = Ok st' →
  heap st ⊆ heap st'.
Proof.
  revert st. induction rules as [|r rules IH]; intros st.
  - intros [= <-]. done.
  - cbn [for_each]. intros (st1 & Hstep & Hrest)%bind_Ok.
    etransitivity; [by eapply openapi_rule_frame | by apply IH].
Qed.

(** X17.  openapi only reads the schemas it is given: in the store it
    returns, every object that was there before the call, and so every
    schema registered on a view function and everything those schemas
    refer to, is what it was.  The copies and empty dicts made by
    _split_definitions are the only additions. *)
Theorem openapi_leaves_the_schemas L self (h : store) doc h' :
  openapi L self h = Ok (doc, h') →
  ∀ l o, h !! l = Some o → h' !! l = Some o.
Proof.
  unfold openapi. intros (st & Hrun%openapi_rules_frame & Hret)%bind_Ok.
  injection Hret as _ <-. cbn [heap] in Hrun.
  intros l o Hl. by eapply lookup_weaken.
Qed.

Lemma openapi_leaves_the_schemas_witness :
  ∃ doc h',
    openapi test_libraries details_app_twice schema_store = Ok (doc, h')
    ∧ h' !! 1%positive = Some (SDict details_schema).
Proof.
  destruct (openapi test_libraries details_app_twice schema_store)
    as [[doc h']|e] eqn:Hrun; [|vm_compute in Hrun; discriminate].
  exists doc, h'. split; [reflexivity|].
  apply (openapi_leaves_the_schemas test_libraries details_app_twice
           schema_store doc h' Hrun 1%positive (SDict details_schema)).
  reflexivity.
Defined.

(** ** openapi: routes without schemas, and routes that fail *)

Lemma openapi_rule_without_schemas L view_functions st rule :
  has_schemas view_functions rule = false →
  openapi_rule L view_functions st rule = Ok st.
Proof.
  unfold has_schemas, openapi_rule.
  destruct (dict_get (rule_endpoint rule) view_functions) as [func|];
    [|discriminate].
  intros Hno%negb_false_iff. cbn [mbind outcome_bind]. by rewrite Hno.
Qed.

Lemma openapi_rules_without_schemas L view_functions rules st :
  for_each (filter (fun r => has_schemas view_functions r = true) rules)
    (openapi_rule L view_functions) st
  = for_each rules (openapi_rule L view_functions) st.
Proof.
  revert st. induction rules as [|r rules IH]; intros st; [done|].
  rewrite filter_cons.
  destruct (decide (has_schemas view_functions r = true)) as [Hyes|Hno].
  - cbn [for_each].
    destruct (openapi_rule L view_functions st r); cbn [mbind outcome_bind];
      [apply IH | done].
  - apply not_true_is_false in Hno. cbn [for_each].
    rewrite (openapi_rule_without_schemas _ _ _ _ Hno).
    cbn [mbind outcome_bind]. apply IH.
Qed.

(** X18.  A route whose view function has no response, request or
    querystring schema is skipped entirely: openapi returns the same
    document and the same store, or raises the same exception, when
    these routes are taken out of the url map. *)
Theorem openapi_skips_routes_without_schemas L self (h : store) :
  openapi L
    {| app_url_rules :=
         filter (fun r => has_schemas (app_view_functions self) r = true)
           (app_url_rules self);
       app_view_functions := app_view_functions self;
       title := title self;
       version := version self |}
    h
  = openapi L self h.
Proof.
  unfold openapi.
  cbn [app_url_rules app_view_functions title version].
  by rewrite openapi_rules_without_schemas.
Qed.

(** X19.  One bad route fails the whole document.  When the routes
    before it are assembled, a route whose endpoint has no view function
    makes openapi raise KeyError, and a route with schemas whose
    docstring is the empty string makes it raise ValueError (its list of
    lines is empty, and the first line is asked for); the routes after
    it are not looked at. *)
Theorem openapi_fails_on_a_bad_route L self (h : store) (pre : list rule)
    rule post st :
  app_url_rules self = (pre ++ rule :: post)%list →
  for_each pre (openapi_rule L (app_view_functions self)) (Assembly [] [] h)
  = Ok st →
  (dict_get (rule_endpoint rule) (app_view_functions self) = None →
   openapi L self h = Raise (Exn KeyError [ArgStr (rule_endpoint rule)] None))
  ∧ (∀ func,
       dict_get (rule_endpoint rule) (app_view_functions self) = Some func →
       no_schemas func = false →
       func_doc func = Some [] →
       ∃ message,
         openapi L self h = Raise (Exn ValueError [ArgStr message] None)).
Proof.
  intros Hrules Hpre. unfold openapi. rewrite Hrules, for_each_app, Hpre.
  cbn [mbind outcome_bind for_each]. split.
  - intros Hnone.
    assert (Hstep : openapi_rule L (app_view_functions self) st rule
                    = Raise (Exn KeyError [ArgStr (rule_endpoint rule)] None)).
    { unfold openapi_rule. by rewrite Hnone. }
    by rewrite Hstep.
  - intros func Hfunc Hschemas Hdoc. eexists.
    assert (Hstep : openapi_rule L (app_view_functions self) st rule
                    = raise_msg ValueError
                        "not enough values to unpack (expected at least 1, got 0)").
    { unfold openapi_rule. rewrite Hfunc. cbn [mbind outcome_bind].
      rewrite Hschemas. unfold build_path_object, document. by rewrite Hdoc. }
    rewrite Hstep. reflexivity.
Qed.

Lemma openapi_fails_on_a_bad_route_witness :
  ∃ message,
    openapi test_libraries silent_app schema_store
    = Raise (Exn ValueError [ArgStr message] None).
Proof.
  destruct (for_each [details_rule]
              (openapi_rule test_libraries (app_view_functions silent_app))
              (Assembly [] [] schema_store)) as [st|e] eqn:Hpre;
    [|vm_compute in Hpre; discriminate].
  apply (proj2 (openapi_fails_on_a_bad_route test_libraries silent_app
                  schema_store [details_rule] silent_rule [] st eq_refl Hpre)
           silent_view); reflexivity.
Defined.

(** ** openapi: the components *)

Lemma dict_get_absent {K V} `{EqDecision K} (k : K) (d : list (K * V)) :
  k ∉ d.*1 → dict_get k d = None.
Proof.
  induction d as [|[k' v] d IH]; simpl; [done|].
  intros Hk. apply not_elem_of_cons in Hk as [Hne Hk].
  rewrite decide_False by done. by apply IH.
Qed.

(** [d.update(other)]: the keys of [other] take its values, the others
    keep theirs. *)
Lemma dict_get_update {K V} `{EqDecision K} (k : K) (d other : list (K * V)) :
  NoDup other.*1 →
  dict_get k (dict_update d other)
  = match dict_get k other with
    | Some v => Some v
    | None => dict_get k d
    end.
Proof.
  unfold dict_update. revert d.
  induction other as [|[k0 v0] other IH]; intros d Hnd; [done|].
  cbn [fmap list_fmap fst] in Hnd. apply NoDup_cons in Hnd as [Hk0 Hnd].
  cbn [fold_left fst snd]. rewrite IH by done. cbn [dict_get].
  destruct (decide (k = k0)) as [->|Hne].
  - rewrite (dict_get_absent k0 other Hk0). apply dict_get_set_eq.
  - destruct (dict_get k other); [done|]. by apply dict_get_set_ne.
Qed.

(** X20.  For a response schema that carries definitions, one turn of
    the response loop moves them into components.schemas, a name
    already there taking the new schema (last write wins) and the other
    names keeping theirs, and records for the status code a copy of the
    schema without its "definitions" entry; parameters, description,
    summary and request body of the operation are untouched.  The
    registered schema itself still has its definitions. *)
Theorem add_response_merges_definitions po schemas (h : store) status_code
    (s d : loc) items defs :
  h !! s = Some (SDict items) →
  dict_get "definitions" items = Some (SRef d) →
  h !! d = Some (SDict defs) →
  NoDup defs.*1 →
  ∃ new_schema schemas' h',
    add_response (po, schemas, h) (status_code, SRef s)
    = Ok (PathObject (po_parameters po)
            (dict_set (po_responses po) status_code (SRef new_schema))
            (po_description po) (po_summary po) (po_requestBody po),
          schemas', h')
    ∧ (∀ name,
         dict_get name schemas'
         = match dict_get name defs with
           | Some schema => Some schema
           | None => dict_get name schemas
           end)
    ∧ h' !! new_schema = Some (SDict (dict_delete "definitions" items))
    ∧ h' !! s = Some (SDict items).
Proof.
  intros Hs Hdef Hd Hnd.
  destruct (split_definitions_ok h s items Hs)
    as (l1 & l2 & h' & Hrun & Hl1 & Hl2 & _ & Hh'l1 & _ & Hrest).
  rewrite Hdef in Hrun. cbn [default] in Hrun.
  assert (Hh'd : h' !! d = Some (SDict defs)).
  { rewrite Hrest; [done | congruence | congruence]. }
  exists l1, (dict_update schemas defs), h'. split.
  - cbn [add_response]. rewrite Hrun. cbn [mbind outcome_bind].
    cbv beta iota. unfold merge_definitions, id. rewrite Hh'd. reflexivity.
  - split; [intros name; by apply dict_get_update|].
    split; [exact Hh'l1|].
    rewrite Hrest; [done | congruence | congruence].
Qed.

Lemma add_response_merges_definitions_witness :
  ∃ new_schema schemas' h',
    add_response (PathObject [] [] None None None,
                  [("Item", SNone); ("Other", SNone)], schema_store)
      (200, SRef 1%positive)
    = Ok (PathObject [] [(200, SRef new_schema)] None None None, schemas', h')
    ∧ dict_get "Item" schemas' = Some (SRef 3%positive)
    ∧ dict_get "Other" schemas' = Some SNone.
Proof.
  destruct (add_response_merges_definitions (PathObject [] [] None None None)
              [("Item", SNone); ("Other", SNone)] schema_store 200
              1%positive 2%positive details_schema [("Item", SRef 3%positive)]
              eq_refl eq_refl eq_refl)
    as (n & sc & h' & Hrun & Hget & _).
  { apply NoDup_singleton. }
  exists n, sc, h'. split; [exact Hrun|].
  split; [apply (Hget "Item") | apply (Hget "Other")].
Defined.

(** ** The websocket methods *)

Lemma type_error_is_no_validation_error args context :
  exn_isinstance (Exn TypeError args context) ValidationError = false.
Proof. reflexivity. Qed.

(** X21.  receive_as and send_as turn one exception of the model's
    constructor into SchemaValidationError: pydantic's ValidationError.
    Any other exception of the constructor, such as the TypeError or
    ValueError that a dataclass raises for a key it does not know or a
    value it rejects, reaches the caller as it is; so does the TypeError
    of receive_as for a JSON message that is not an object.  In each of
    these cases send_as sends nothing. *)
Theorem websocket_methods_convert_validation_errors_only L ws model_class :
  (∀ items e,
     instantiate L model_class items = Raise e →
     receive_as L (VDict items) model_class
     = (if exn_isinstance e ValidationError
        then Raise (Exn SchemaValidationError [] (Some e)) else Raise e)
     ∧ send_as L ws (VDict items) model_class
       = (if exn_isinstance e ValidationError
          then Raise (Exn SchemaValidationError [] (Some e)) else Raise e))
  ∧ (∀ args context,
       exn_isinstance (Exn TypeError args context) ValidationError = false
       ∧ exn_isinstance (Exn ValueError args context) ValidationError = false
       ∧ exn_isinstance (Exn ValidationError args context) ValidationError = true)
  ∧ (∀ data,
       (∀ items, data ≠ VDict items) →
       ∃ message,
         receive_as L data model_class
         = Raise (Exn TypeError [ArgStr message] None)).
Proof.
  split; [|split].
  - intros items e He.
    unfold receive_as, send_as, instantiate_from, try_except. rewrite He.
    cbn [existsb]. rewrite orb_false_r.
    split; by destruct (exn_isinstance e ValidationError).
  - intros args context. repeat split; reflexivity.
  - intros data Hnd. eexists.
    destruct data; try reflexivity. exfalso. by eapply Hnd.
Qed.

(** A message with a key the class does not declare: the constructor
    of the dataclass refuses it with a TypeError, which comes out
    unchanged. *)
Lemma websocket_methods_convert_validation_errors_only_witness :
  receive_as test_libraries
    (VDict [("name", VStr "bob"); ("age", VInt 2); ("height", VInt 3)]) DCDetails
  = Raise (Exn TypeError [ArgStr "__init__() got unexpected arguments"] None).
Proof.
  apply (proj1 (proj1 (websocket_methods_convert_validation_errors_only
                         test_libraries [] DCDetails)
                  [("name", VStr "bob"); ("age", VInt 2); ("height", VInt 3)]
                  (Exn TypeError [ArgStr "__init__() got unexpected arguments"]
                     None)
                  eq_refl)).
Defined.

(** X22.  What send_as sends, receive_as reads back.  For a model of
    exactly model_class whose dict form ([asdict] for a dataclass,
    [.dict()] otherwise) the constructor accepts and rebuilds into the
    model: send_as sends that dict form as one message; receive_as of
    that message returns the model; and sending the dict form itself
    sends the same message as sending the model. *)
Theorem send_as_then_receive_as L ws v model_class items :
  type_of v = model_class →
  (∀ items', v ≠ VDict items') →
  (if is_dataclass model_class then dataclasses_asdict L v
   else BaseModel_dict L v) = Ok (VDict items) →
  instantiate L model_class items = Ok v →
  send_as L ws v model_class = Ok (send_json ws (VDict items))
  ∧ receive_as L (VDict items) model_class = Ok v
  ∧ send_as L ws (VDict items) model_class = Ok (send_json ws (VDict items)).
Proof.
  intros Hty Hnd Hdump Hmake. split; [|split].
  - unfold send_as.
    destruct v; try (exfalso; by eapply Hnd);
      rewrite decide_True by done; cbn [mbind outcome_bind];
      rewrite Hty, Hdump; reflexivity.
  - unfold receive_as, instantiate_from. by rewrite Hmake.
  - unfold send_as. rewrite Hmake. cbn [try_except mbind outcome_bind].
    rewrite Hty, Hdump. reflexivity.
Qed.

Lemma send_as_then_receive_as_witness :
  send_as test_libraries [] (bob DCDetails) DCDetails
  = Ok [VDict [("name", VStr "bob"); ("age", VInt 2)]]
  ∧ receive_as test_libraries (VDict [("name", VStr "bob"); ("age", VInt 2)])
      DCDetails
    = Ok (bob DCDetails).
Proof.
  destruct (send_as_then_receive_as test_libraries [] (bob DCDetails) DCDetails
              [("name", VStr "bob"); ("age", VInt 2)] eq_refl)
    as (Hsend & Hrecv & _); try reflexivity.
  - intros items'. discriminate.
  - split; [exact Hsend | exact Hrecv].
Defined.

(** ** init_app *)

(** X23.  init_app registers the documentation routes in a fixed order
    and only under the openapi route: with openapi_path None no route is
    added, whatever redoc_ui_path and swagger_ui_path are; otherwise
    the openapi endpoint comes first, then redoc_ui and swagger_ui for
    those of their paths that are not None.  The title is settled at
    the first init_app (the given title, or the name of that
    application) and init_app on another application keeps it. *)
Theorem init_app_routes_and_title self app app2 :
  let '(self', app') := init_app self app in
  app_added_rules app'
  = (app_added_rules app
     ++ match ext_openapi_path self with
        | None => []
        | Some path =>
            (path, "openapi")
            :: match ext_redoc_ui_path self with
               | Some path => [(path, "redoc_ui")]
               | None => []
               end
            ++ match ext_swagger_ui_path self with
               | Some path => [(path, "swagger_ui")]
               | None => []
               end
        end)%list
  ∧ ext_title self' = Some (default (app_name app) (ext_title self))
  ∧ ext_title (init_app self' app2).1 = ext_title self'.
Proof.
  unfold init_app. cbn [ext_openapi_path ext_redoc_ui_path ext_swagger_ui_path
                          ext_title fst].
  split; [|split].
  - destruct (ext_openapi_path self), (ext_redoc_ui_path self),
      (ext_swagger_ui_path self);
      cbn [add_url_rule app_added_rules app_name app_websocket_class
             app_json_encoder];
      rewrite <- ?app_assoc, ?app_nil_r; reflexivity.
  - by destruct (ext_title self).
  - by destruct (ext_title self).
Qed.

(** ** openapi: the query parameters *)

Lemma merge_after_split (h h' : store) (l1 l2 : loc) items schemas :
  (∀ v, dict_get "definitions" items = Some v →
        ∃ d defs, v = SRef d ∧ h !! d = Some (SDict defs)) →
  h !! l1 = None → h !! l2 = None →
  h' !! l2 = Some (SDict []) →
  (∀ l, l ≠ l1 → l ≠ l2 → h' !! l = h !! l) →
  ∃ schemas',
    merge_definitions h' schemas
      (default (SRef l2) (dict_get "definitions" items)) = Ok schemas'.
Proof.
  intros Hdefs Hl1 Hl2 Hempty Hrest.
  destruct (dict_get "definitions" items) as [v|];
    unfold default; cbn [from_option]; unfold id.
  - destruct (Hdefs v eq_refl) as (d & defs & -> & Hd).
    unfold merge_definitions.
    rewrite Hrest, Hd; [eauto | congruence | congruence].
  - unfold merge_definitions. rewrite Hempty. eauto.
Qed.

(** X24.  One query parameter per property.  For a querystring schema
    that is a dict (with its definitions, if any, in a dict), the
    querystring step appends to the parameters of the operation one
    descriptor per item of the schema's "properties" dict, in the order
    of that dict, each with the property's name, "query" and the
    property's schema, and changes nothing else of the operation.  A
    schema without a "properties" entry makes the step raise
    KeyError. *)
Theorem add_querystring_explodes_properties func po schemas (h : store)
    (q : loc) items :
  func_querystring_schema func = Some (SRef q) →
  h !! q = Some (SDict items) →
  (∀ v, dict_get "definitions" items = Some v →
        ∃ d defs, v = SRef d ∧ h !! d = Some (SDict defs)) →
  (∀ p props,
     dict_get "properties" items = Some (SRef p) →
     h !! p = Some (SDict props) →
     ∃ schemas' h',
       add_querystring func (po, schemas, h)
       = Ok (PathObject
               (po_parameters po
                ++ map (fun item => Param item.1 "query" (Some item.2)) props)
               (po_responses po) (po_description po) (po_summary po)
               (po_requestBody po),
             schemas', h'))
  ∧ (dict_get "properties" items = None →
     add_querystring func (po, schemas, h)
     = Raise (Exn KeyError [ArgStr "properties"] None)).
Proof.
  intros Hq Hs Hdefs.
  destruct (split_definitions_ok h q items Hs)
    as (l1 & l2 & h' & Hrun & Hl1 & Hl2 & _ & Hh'l1 & Hh'l2 & Hrest).
  destruct (merge_after_split h h' l1 l2 items schemas Hdefs Hl1 Hl2 Hh'l2 Hrest)
    as (schemas' & Hmerge).
  assert (Hprops : dict_get "properties" (dict_delete "definitions" items)
                   = dict_get "properties" items).
  { by apply dict_get_delete_ne. }
  assert (Hschema : dict_items_of h' (SRef l1) "__getitem__"
                    = Ok (dict_delete "definitions" items)).
  { unfold dict_items_of. by rewrite Hh'l1. }
  split.
  - intros p props Hp Hpd. exists schemas', h'.
    assert (Hitems : dict_items_of h' (SRef p) "items" = Ok props).
    { unfold dict_items_of.
      rewrite Hrest, Hpd; [reflexivity | congruence | congruence]. }
    cbn [add_querystring]. rewrite Hq, Hrun. cbn [mbind outcome_bind].
    cbv beta iota. rewrite Hmerge. cbn [mbind outcome_bind].
    rewrite Hschema. cbn [mbind outcome_bind].
    rewrite Hprops, Hp. cbn [mbind outcome_bind].
    rewrite Hitems. reflexivity.
  - intros Hnone.
    cbn [add_querystring]. rewrite Hq, Hrun. cbn [mbind outcome_bind].
    cbv beta iota. rewrite Hmerge. cbn [mbind outcome_bind].
    rewrite Hschema. cbn [mbind outcome_bind].
    rewrite Hprops, Hnone. reflexivity.
Qed.

Lemma add_querystring_explodes_properties_witness :
  (∃ schemas' h',
     add_querystring query_view (PathObject [] [] None None None, [], query_store)
     = Ok (PathObject
             [Param "count_le" "query" (Some (SRef 6%positive));
              Param "count_gt" "query" (Some (SRef 6%positive))]
             [] None None None, schemas', h'))
  ∧ add_querystring bad_query_view
      (PathObject [] [] None None None, [], query_store)
    = Raise (Exn KeyError [ArgStr "properties"] None).
Proof.
  split.
  - refine (proj1 (add_querystring_explodes_properties query_view
                     (PathObject [] [] None None None) [] query_store
                     4%positive query_schema eq_refl eq_refl _)
              5%positive query_properties eq_refl eq_refl).
    intros v Hv. vm_compute in Hv. discriminate.
  - refine (proj2 (add_querystring_explodes_properties bad_query_view
                     (PathObject [] [] None None None) [] query_store
                     1%positive details_schema eq_refl eq_refl _)
              eq_refl).
    intros v Hv. exists 2%positive, [("Item", SRef 3%positive)].
    vm_compute in Hv. split; [congruence | reflexivity].
Defined.
